(** * ORCA xyz2inp GUI: the input-file generator of [orca_xyz2inp_gui.py]

    A shallow embedding of the plugin's dialog ([OrcaInputDialog]) and of the
    Python and Qt primitives it calls, followed by the properties of the
    generated ORCA input document.

    Conventions.
    - A Python [str] is a [string]; a character is a code point below 256.
    - A Python [int] is a [Z].
    - A file is the text that Python's text-mode I/O reads from it or writes
      to it; the file system is a finite map from paths to nodes.
    - [os.environ] is a finite map from names to values.
    - A message box or a cancelled dialog is the outcome of a run.

    The file system is the part of the real one that the statements need:
    every file is readable text, a path that is not a directory can be
    opened for writing, and the writes of one run happen together. *)

From Stdlib Require Import ZArith String Ascii List DecimalString DecimalPos Lia Bool.
From stdpp Require Import gmap strings.
Import ListNotations.

Local Open Scope Z_scope.

#[local] Arguments String.append !_ _ / : simpl nomatch.

(** ** Python primitives *)

Module Py.

(** [str.isspace] on one character, for code points below 256. *)
Definition isspace (c : ascii) : bool :=
  let n := N_of_ascii c in
  ((9 <=? n) && (n <=? 13) || (28 <=? n) && (n <=? 32)
   || (n =? 133) || (n =? 160))%N.

Fixpoint lstrip (s : string) : string :=
  match s with
  | EmptyString => EmptyString
  | String c r => if isspace c then lstrip r else s
  end.

Fixpoint rstrip (s : string) : string :=
  match s with
  | EmptyString => EmptyString
  | String c r =>
      match rstrip r with
      | EmptyString => if isspace c then EmptyString else String c EmptyString
      | r' => String c r'
      end
  end.

(** [s.strip()] *)
Definition strip (s : string) : string := rstrip (lstrip s).

Definition newline : ascii := "010"%char.
Definition nl : string := String newline EmptyString.

(** [s.split('\n')]: never empty, [""] splits into [[""]]. *)
Fixpoint split_nl (s : string) : list string :=
  match s with
  | EmptyString => [EmptyString]
  | String c r =>
      if Ascii.eqb c newline then EmptyString :: split_nl r
      else match split_nl r with
           | h :: t => String c h :: t
           | [] => [String c EmptyString]
           end
  end.

(** ["\n".join(l)] *)
Fixpoint join_nl (l : list string) : string :=
  match l with
  | [] => EmptyString
  | [x] => x
  | x :: r => x +:+ nl +:+ join_nl r
  end.

(** [l[n:]] *)
Definition slice_from {A} (n : nat) (l : list A) : list A := skipn n l.

(** [str(n)], also what an f-string field [{n}] renders for an [int]. *)
Definition str_of_int (n : Z) : string := NilZero.string_of_int (Z.to_int n).

Definition is_digit (c : ascii) : bool :=
  let n := N_of_ascii c in ((48 <=? n) && (n <=? 57))%N.

Definition digit_value (c : ascii) : Z := Z.of_N (N_of_ascii c) - 48.

(** The digit part of an integer literal: decimal digits, with single
    underscores allowed between two digits. [prev] tells whether the
    previous character was a digit. *)
Fixpoint digits_value (acc : Z) (prev : bool) (s : string) : option Z :=
  match s with
  | EmptyString => if prev then Some acc else None
  | String c r =>
      if is_digit c then digits_value (10 * acc + digit_value c) true r
      else if Ascii.eqb c "_"%char then
             if prev then digits_value acc false r else None
      else None
  end.

(** The whitespace that [int] skips around a literal: tab to carriage
    return and the space, and, in a text with characters above 127, the
    spaces 133 and 160. The separators 28..31, which [strip] removes, are
    not skipped. *)
Definition int_isspace (c : ascii) : bool :=
  let n := N_of_ascii c in
  ((9 <=? n) && (n <=? 13) || (n =? 32) || (n =? 133) || (n =? 160))%N.

Fixpoint int_lstrip (s : string) : string :=
  match s with
  | EmptyString => EmptyString
  | String c r => if int_isspace c then int_lstrip r else s
  end.

Fixpoint int_rstrip (s : string) : string :=
  match s with
  | EmptyString => EmptyString
  | String c r =>
      match int_rstrip r with
      | EmptyString => if int_isspace c then EmptyString else String c EmptyString
      | r' => String c r'
      end
  end.

(** The interpreter's default limit on the digits of a decimal literal:
    a longer one makes [int] raise [ValueError]. *)
Definition int_max_str_digits : N := 4300.

Fixpoint digit_count (s : string) : N :=
  match s with
  | EmptyString => 0%N
  | String c r => if is_digit c then N.succ (digit_count r) else digit_count r
  end.

(** [int(s)] in base 10: surrounding whitespace is dropped, one sign is
    allowed. [None] stands for the [ValueError] that [int] raises. *)
Definition int_of_str (s : string) : option Z :=
  let t := int_rstrip (int_lstrip s) in
  if (int_max_str_digits <? digit_count t)%N then None
  else
    match t with
    | String "+"%char r => digits_value 0 false r
    | String "-"%char r => Z.opp <$> digits_value 0 false r
    | t => digits_value 0 false t
    end.

End Py.

(** ** Qt primitives *)

Module Qt.

(** A [QSpinBox]: an integer field with an inclusive range. *)
Record QSpinBox := mkSpinBox { minimum : Z; maximum : Z; value : Z }.

(** A freshly constructed spin box: range 0..99, value 0. *)
Definition new_spinbox : QSpinBox := mkSpinBox 0 99 0.

Definition bound (lo hi v : Z) : Z := Z.max lo (Z.min hi v).

(** [sb.setRange(lo, hi)]: the maximum is raised to the minimum if it is
    below it, and the current value is brought inside the new range. *)
Definition setRange (lo hi : Z) (sb : QSpinBox) : QSpinBox :=
  let hi' := Z.max lo hi in
  mkSpinBox lo hi' (bound lo hi' (value sb)).

(** [sb.setValue(v)]: a value outside the range is replaced by the nearest
    bound. The argument is a C [int] for Qt; the conversion of a Python
    [int] by the binding is [setValue_py] below. *)
Definition setValue (v : Z) (sb : QSpinBox) : QSpinBox :=
  mkSpinBox (minimum sb) (maximum sb) (bound (minimum sb) (maximum sb) v).

End Qt.

(** ** The molecule, as the plugin uses it *)

Module Chem.

(** An atom: element symbol, formal charge, number of radical electrons
    and position. A coordinate is held in units of 10^-6, the precision
    of the coordinate text. *)
Record Atom := mkAtom {
  GetSymbol : string;
  atom_formal_charge : Z;
  GetNumRadicalElectrons : N;
  pos_x : Z;
  pos_y : Z;
  pos_z : Z
}.

(** A molecule: its name and its atoms in their native order. *)
Record Mol := mkMol { mol_name : string; GetAtoms : list Atom }.

Definition GetNumAtoms (mol : Mol) : nat := length (GetAtoms mol).

(** [Chem.GetFormalCharge(mol)]: the net formal charge. *)
Definition GetFormalCharge (mol : Mol) : Z :=
  fold_right Z.add 0 (map atom_formal_charge (GetAtoms mol)).

Definition digit_char (d : Z) : ascii := ascii_of_N (Z.to_N (48 + d)).

(** The [w] low decimal digits of [n], most significant first. *)
Fixpoint fixed_digits (w : nat) (n : Z) : string :=
  match w with
  | O => EmptyString
  | S w' => fixed_digits w' (n / 10) +:+ String (digit_char (n mod 10)) EmptyString
  end.

(** A coordinate of [v] * 10^-6 printed with six decimals. *)
Definition format_coord (v : Z) : string :=
  let a := Z.abs v in
  (if v <? 0 then "-" else "")
  +:+ Py.str_of_int (a / 1000000) +:+ "." +:+ fixed_digits 6 (a mod 1000000).

(** One atom line: the element symbol and the three coordinates. *)
Definition atom_line (a : Atom) : string :=
  GetSymbol a +:+ " " +:+ format_coord (pos_x a)
  +:+ " " +:+ format_coord (pos_y a)
  +:+ " " +:+ format_coord (pos_z a).

Fixpoint atom_lines_text (l : list Atom) : string :=
  match l with
  | [] => EmptyString
  | a :: r => atom_line a +:+ Py.nl +:+ atom_lines_text r
  end.

(** Modelled from the spec: [Chem.MolToXYZBlock] is RDKit's, not this
    repository's. The block is the standard whitespace-delimited one the
    spec describes: one header line with the atom count, one comment line
    (the molecule's name), then one line per atom with the element symbol
    and x, y, z, laid out as in the spec's example. *)
Definition MolToXYZBlock (mol : Mol) : string :=
  Py.str_of_int (Z.of_nat (GetNumAtoms mol)) +:+ Py.nl
  +:+ mol_name mol +:+ Py.nl
  +:+ atom_lines_text (GetAtoms mol).

End Chem.

(** ** The host: file system, environment, main window *)

Inductive Node := File (text : string) | Dir.

Inductive Exception :=
| FileNotFoundError (path : string)
| IsADirectoryError (path : string).

Inductive Result (A : Type) :=
| Ok (a : A)
| Raise (e : Exception).
Arguments Ok {A} a.
Arguments Raise {A} e.

Definition bind {A B} (m : Result A) (k : A -> Result B) : Result B :=
  match m with
  | Ok a => k a
  | Raise e => Raise e
  end.

Notation "'do' x <- m ; k" := (bind m (fun x => k))
  (at level 10, x name, m at level 100, k at level 200).

Module Os.

(** [os.path.exists(path)]: files and directories both exist. *)
Definition path_exists (fs : gmap string Node) (path : string) : bool :=
  match fs !! path with
  | Some _ => true
  | None => false
  end.

(** [open(path, 'r', encoding='utf-8')] followed by [f.read()]. *)
Definition read_text (fs : gmap string Node) (path : string) : Result string :=
  match fs !! path with
  | Some (File text) => Ok text
  | Some Dir => Raise (IsADirectoryError path)
  | None => Raise (FileNotFoundError path)
  end.

(** [open(path, 'w', encoding='utf-8')] followed by writes that add up to
    [text]: the file is created, or its old content replaced. *)
Definition write_text (fs : gmap string Node) (path text : string)
  : Result (gmap string Node) :=
  match fs !! path with
  | Some Dir => Raise (IsADirectoryError path)
  | _ => Ok (<[path := File text]> fs)
  end.

End Os.

(** The main window of the host application, with its [current_mol]
    attribute present as [run] requires: [None] when it holds no molecule. *)
Record MainWindow := mkMainWindow {
  current_mol : option Chem.Mol;
  current_file_path : option string
}.

(** ** The dialog *)

Definition PLUGIN_NAME : string := "ORCA xyz2inp GUI".

Record OrcaInputDialog := mkDialog {
  le_template : string;
  le_suffix : string;
  sb_charge : Qt.QSpinBox;
  sb_mult : Qt.QSpinBox;
  sb_nprocs : Qt.QSpinBox;
  sb_maxcore : Qt.QSpinBox
}.

Definition with_charge (sb : Qt.QSpinBox) (self : OrcaInputDialog) :=
  mkDialog (le_template self) (le_suffix self) sb (sb_mult self)
           (sb_nprocs self) (sb_maxcore self).
Definition with_mult (sb : Qt.QSpinBox) (self : OrcaInputDialog) :=
  mkDialog (le_template self) (le_suffix self) (sb_charge self) sb
           (sb_nprocs self) (sb_maxcore self).
Definition with_nprocs (sb : Qt.QSpinBox) (self : OrcaInputDialog) :=
  mkDialog (le_template self) (le_suffix self) (sb_charge self) (sb_mult self)
           sb (sb_maxcore self).
Definition with_maxcore (sb : Qt.QSpinBox) (self : OrcaInputDialog) :=
  mkDialog (le_template self) (le_suffix self) (sb_charge self) (sb_mult self)
           (sb_nprocs self) sb.
Definition with_template (path : string) (self : OrcaInputDialog) :=
  mkDialog path (le_suffix self) (sb_charge self) (sb_mult self)
           (sb_nprocs self) (sb_maxcore self).
Definition with_suffix (suffix : string) (self : OrcaInputDialog) :=
  mkDialog (le_template self) suffix (sb_charge self) (sb_mult self)
           (sb_nprocs self) (sb_maxcore self).

(** [setup_ui]: the fields and their declared ranges and initial values. *)
Definition setup_ui : OrcaInputDialog :=
  mkDialog EmptyString EmptyString
    (Qt.setValue 0 (Qt.setRange (-10) 10 Qt.new_spinbox))
    (Qt.setValue 1 (Qt.setRange 1 10 Qt.new_spinbox))
    (Qt.setValue 1 (Qt.setRange 1 128 Qt.new_spinbox))
    (Qt.setValue 1000 (Qt.setRange 100 100000 Qt.new_spinbox)).

(** The names of the two environment overrides. *)
Definition NPROCS_VAR : string := "orca_xyz2inp_nprocs".
Definition MAXCORE_VAR : string := "orca_xyz2inp_maxcore".

(** One environment override: [int(os.environ[name])] is loaded into the
    field, and a [ValueError] is swallowed ([except ValueError: pass]). *)
Definition load_override (environ : gmap string string) (name : string)
    (sb : Qt.QSpinBox) : Qt.QSpinBox :=
  match environ !! name with
  | Some text =>
      match Py.int_of_str text with
      | Some val => Qt.setValue val sb
      | None => sb
      end
  | None => sb
  end.

(** [sum(atom.GetNumRadicalElectrons() for atom in mol.GetAtoms())] *)
Definition num_radical_electrons (mol : Chem.Mol) : Z :=
  fold_right Z.add 0 (map (fun a => Z.of_N (Chem.GetNumRadicalElectrons a))
                          (Chem.GetAtoms mol)).

(** [load_defaults]: environment overrides first, then charge and
    multiplicity estimated from the current molecule. *)
Definition load_defaults (environ : gmap string string) (main_window : MainWindow)
    (self : OrcaInputDialog) : OrcaInputDialog :=
  let self := with_nprocs
                (load_override environ NPROCS_VAR (sb_nprocs self)) self in
  let self := with_maxcore
                (load_override environ MAXCORE_VAR (sb_maxcore self)) self in
  match current_mol main_window with
  | Some mol =>
      let charge := Chem.GetFormalCharge mol in
      let self := with_charge (Qt.setValue charge (sb_charge self)) self in
      let multiplicity := num_radical_electrons mol + 1 in
      with_mult (Qt.setValue multiplicity (sb_mult self)) self
  | None => self
  end.

(** [OrcaInputDialog(main_window)]: [setup_ui] then [load_defaults]. *)
Definition init (environ : gmap string string) (main_window : MainWindow)
  : OrcaInputDialog :=
  load_defaults environ main_window setup_ui.

(** What the user can do to the form afterwards. A spin box accepts only
    values of its range, which [setValue] stands for. *)
Inductive UserEdit :=
| EditTemplate (path : string)
| EditSuffix (suffix : string)
| EditCharge (v : Z)
| EditMult (v : Z)
| EditNProcs (v : Z)
| EditMaxCore (v : Z).

Definition apply_edit (self : OrcaInputDialog) (e : UserEdit) : OrcaInputDialog :=
  match e with
  | EditTemplate path => with_template path self
  | EditSuffix suffix => with_suffix suffix self
  | EditCharge v => with_charge (Qt.setValue v (sb_charge self)) self
  | EditMult v => with_mult (Qt.setValue v (sb_mult self)) self
  | EditNProcs v => with_nprocs (Qt.setValue v (sb_nprocs self)) self
  | EditMaxCore v => with_maxcore (Qt.setValue v (sb_maxcore self)) self
  end.

(** ** Generation *)

(** The coordinate lines of an XYZ block: the stripped block is split into
    lines and the first two (atom count, comment) are skipped. *)
Definition coords_data_of (xyz_block : string) : string :=
  let xyz_lines := Py.split_nl (Py.strip xyz_block) in
  if (2 <? length xyz_lines)%nat then Py.join_nl (Py.slice_from 2 xyz_lines)
  else EmptyString.

Definition comment_line : string :=
  "# Generated by MoleditPy (" +:+ PLUGIN_NAME +:+ ")".
Definition pal_line (nprocs : Z) : string :=
  "%pal nprocs " +:+ Py.str_of_int nprocs +:+ " end".
Definition maxcore_line (maxcore : Z) : string :=
  "%MaxCore " +:+ Py.str_of_int maxcore.
Definition xyz_header (charge mult : Z) : string :=
  "* xyz " +:+ Py.str_of_int charge +:+ " " +:+ Py.str_of_int mult.

(** The seven writes of [generate_file], in order. *)
Definition document (nprocs maxcore : Z) (template_content : string)
    (charge mult : Z) (coords_data : string) : string :=
  (comment_line +:+ Py.nl)
  +:+ (pal_line nprocs +:+ Py.nl)
  +:+ (maxcore_line maxcore +:+ Py.nl +:+ Py.nl)
  +:+ (template_content +:+ Py.nl +:+ Py.nl)
  +:+ (xyz_header charge mult +:+ Py.nl)
  +:+ (coords_data +:+ Py.nl)
  +:+ ("*" +:+ Py.nl).

(** The text written for a template file's text and a molecule. *)
Definition render (self : OrcaInputDialog) (template_text : string)
    (mol : Chem.Mol) : string :=
  let charge := Qt.value (sb_charge self) in
  let mult := Qt.value (sb_mult self) in
  let nprocs := Qt.value (sb_nprocs self) in
  let maxcore := Qt.value (sb_maxcore self) in
  let template_content := Py.strip template_text in
  let coords_data := coords_data_of (Chem.MolToXYZBlock mol) in
  document nprocs maxcore template_content charge mult coords_data.

(** How a run of [generate_file] ends: one of the message boxes, or a
    cancelled save dialog. [Information] is followed by [self.accept()]. *)
Inductive Outcome :=
| Warning (message : string)
| Cancelled
| Information (message : string)
| Critical (e : Exception).

Definition template_not_found : Outcome := Warning "Template file not found.".
Definition no_molecule : Outcome := Warning "No molecule loaded.".

(** The body of the [try] block. *)
Definition try_generate (self : OrcaInputDialog) (mol : Chem.Mol)
    (template_path output_path : string) (fs : gmap string Node)
  : Result (gmap string Node) :=
  do template_text <- Os.read_text fs template_path;
  Os.write_text fs output_path (render self template_text mol).

(** [generate_file]. [save_as] is the path the save dialog returns, empty
    when the user cancels it; the default name offered there (built from
    [current_file_path] and the suffix field) only pre-fills that dialog.
    The result is the outcome shown and the file system afterwards. *)
Definition generate_file (self : OrcaInputDialog) (main_window : MainWindow)
    (save_as : string) (fs : gmap string Node) : Outcome * gmap string Node :=
  let template_path := le_template self in
  if String.eqb template_path EmptyString || negb (Os.path_exists fs template_path)
  then (template_not_found, fs)
  else
    match current_mol main_window with
    | None => (no_molecule, fs)
    | Some mol =>
        let output_path := save_as in
        if String.eqb output_path EmptyString then (Cancelled, fs)
        else
          match try_generate self mol template_path output_path fs with
          | Ok fs' =>
              (Information ("Input file generated:" +:+ Py.nl +:+ output_path), fs')
          | Raise e => (Critical e, fs)
          end
    end.

(** ** Vocabulary of the statements *)

Fixpoint string_forall (p : ascii -> bool) (s : string) : bool :=
  match s with
  | EmptyString => true
  | String c r => p c && string_forall p r
  end.

Definition all_space (s : string) : bool := string_forall Py.isspace s.
Definition no_space (s : string) : bool :=
  string_forall (fun c => negb (Py.isspace c)) s.
Definition no_newline (s : string) : bool :=
  string_forall (fun c => negb (Ascii.eqb c Py.newline)) s.

(** The first whitespace-delimited field of a line that starts with it. *)
Fixpoint first_field (s : string) : string :=
  match s with
  | EmptyString => EmptyString
  | String c r => if Py.isspace c then EmptyString else String c (first_field r)
  end.

(** What precedes the template block, and what follows its blank line. *)
Definition preamble (nprocs maxcore : Z) : string :=
  comment_line +:+ Py.nl +:+ pal_line nprocs +:+ Py.nl
  +:+ maxcore_line maxcore +:+ Py.nl +:+ Py.nl.

Definition coordinate_block (charge mult : Z) (coords_data : string) : string :=
  xyz_header charge mult +:+ Py.nl +:+ coords_data +:+ Py.nl +:+ "*" +:+ Py.nl.

Definition in_range (lo hi : Z) (sb : Qt.QSpinBox) : Prop :=
  Qt.minimum sb = lo /\ Qt.maximum sb = hi /\ lo <= Qt.value sb <= hi.

(** The declared ranges of the four parameter fields. *)
Definition within_declared_ranges (self : OrcaInputDialog) : Prop :=
  in_range (-10) 10 (sb_charge self) /\ in_range 1 10 (sb_mult self)
  /\ in_range 1 128 (sb_nprocs self) /\ in_range 100 100000 (sb_maxcore self).


(** How many lines of [l] equal [x]. *)
Fixpoint occurrences (x : string) (l : list string) : nat :=
  match l with
  | [] => O
  | y :: r => if String.eqb x y then S (occurrences x r) else occurrences x r
  end.

(** ** Sample data *)

Module Sample.

(** The two atoms of the spec's example: O at the origin, H at x = 0.96. *)
Definition oxygen : Chem.Atom := Chem.mkAtom "O" 0 0 0 0 0.
Definition hydrogen : Chem.Atom := Chem.mkAtom "H" 0 0 960000 0 0.
Definition mol : Chem.Mol := Chem.mkMol "" [oxygen; hydrogen].
Definition window : MainWindow := mkMainWindow (Some mol) None.

Definition template_path : string := "method.tmplt".
Definition template_text : string := "! B3LYP def2-SVP".

(** The dialog after the user picked the template and entered charge 0,
    multiplicity 1, 4 processes and 2000 MB. *)
Definition dialog : OrcaInputDialog :=
  fold_left apply_edit
    [EditTemplate template_path; EditCharge 0; EditMult 1;
     EditNProcs 4; EditMaxCore 2000]
    (init ∅ window).

Definition fs : gmap string Node := {[ template_path := File template_text ]}.

Definition expected : string :=
"# Generated by MoleditPy (ORCA xyz2inp GUI)
%pal nprocs 4 end
%MaxCore 2000

! B3LYP def2-SVP

* xyz 0 1
O 0.000000 0.000000 0.000000
H 0.960000 0.000000 0.000000
*
".

(** A template that carries a parallelisation directive of its own. *)
Definition pal_template : string :=
"! HF
%pal nprocs 4 end".

(** A template file that holds only blanks and a line break. *)
Definition blank_template : string := Py.nl +:+ "  ".

Definition blank_fs : gmap string Node := {[ template_path := File blank_template ]}.

Definition blank_document : string :=
"# Generated by MoleditPy (ORCA xyz2inp GUI)
%pal nprocs 4 end
%MaxCore 2000



* xyz 0 1
O 0.000000 0.000000 0.000000
H 0.960000 0.000000 0.000000
*
".

(** A molecule without atoms. *)
Definition no_atoms : Chem.Mol := Chem.mkMol "" [].


Definition malformed_environ : gmap string string := {[ NPROCS_VAR := "four" ]}.

End Sample.

(** ** The rest of the dialog: default file name, template picker, entry point *)

Module OsPath.

(** [s.rfind(c)] for a single character: the index of its last occurrence,
    -1 when there is none. *)
Fixpoint rfind (c : ascii) (s : string) : Z :=
  match s with
  | EmptyString => -1
  | String x r =>
      let i := rfind c r in
      if 0 <=? i then i + 1
      else if Ascii.eqb x c then 0 else -1
  end.

(** [s[:n]] and [s[n:]] for an index that is not negative. *)
Fixpoint str_take (n : nat) (s : string) : string :=
  match n, s with
  | S n', String c r => String c (str_take n' r)
  | _, _ => EmptyString
  end.

Fixpoint str_drop (n : nat) (s : string) : string :=
  match n, s with
  | S n', String c r => str_drop n' r
  | _, _ => s
  end.

(** [os.path.basename(p)], as [posixpath] defines it:
    [i = p.rfind('/') + 1; return p[i:]]. *)
Definition basename (p : string) : string :=
  let i := rfind "/" p + 1 in
  str_drop (Z.to_nat i) p.

(** The loop of [splitext] over [p[filenameIndex:dotIndex]]: it returns at
    the first character that is not a dot. *)
Fixpoint found_non_dot (segment : string) : bool :=
  match segment with
  | EmptyString => false
  | String c r => if Ascii.eqb c "." then found_non_dot r else true
  end.

(** [os.path.splitext(p)], as [posixpath] defines it: the extension starts
    at the last dot, unless that dot comes before the last slash or only
    dots stand between the last slash and it. *)
Definition splitext (p : string) : string * string :=
  let sepIndex := rfind "/" p in
  let dotIndex := rfind "." p in
  if sepIndex <? dotIndex then
    let filenameIndex := sepIndex + 1 in
    if found_non_dot (str_drop (Z.to_nat filenameIndex) (str_take (Z.to_nat dotIndex) p))
    then (str_take (Z.to_nat dotIndex) p, str_drop (Z.to_nat dotIndex) p)
    else (p, EmptyString)
  else (p, EmptyString).

End OsPath.

(** The override of field [name], when it is set and parses. *)
Definition override_value (environ : gmap string string) (name : string) : option Z :=
  match environ !! name with
  | Some text => Py.int_of_str text
  | None => None
  end.

(** ** Building the dialog through the binding

    [Qt.setValue] is the widget's own setter, whose argument is a C [int].
    The Python binding converts the argument first and raises
    [OverflowError] for an integer outside the C [int] range; [None] stands
    for that exception below. *)

Definition INT_MIN : Z := -2147483648.
Definition INT_MAX : Z := 2147483647.

Definition fits_c_int (v : Z) : bool := (INT_MIN <=? v) && (v <=? INT_MAX).

(** [sb.setValue(v)] as called from Python. *)
Definition setValue_py (v : Z) (sb : Qt.QSpinBox) : option Qt.QSpinBox :=
  if fits_c_int v then Some (Qt.setValue v sb) else None.

(** One environment override: the [ValueError] of [int] is swallowed, the
    [OverflowError] of [setValue] is not ([except ValueError: pass]). *)
Definition load_override_py (environ : gmap string string) (name : string)
    (sb : Qt.QSpinBox) : option Qt.QSpinBox :=
  match environ !! name with
  | Some text =>
      match Py.int_of_str text with
      | Some val => setValue_py val sb
      | None => Some sb
      end
  | None => Some sb
  end.

(** The estimate of charge and multiplicity: any exception ends the [try]
    block where it is raised and is only printed ([except Exception]). *)
Definition estimate_py (mol : Chem.Mol) (self : OrcaInputDialog) : OrcaInputDialog :=
  let charge := Chem.GetFormalCharge mol in
  match setValue_py charge (sb_charge self) with
  | None => self
  | Some sb =>
      let self := with_charge sb self in
      let multiplicity := num_radical_electrons mol + 1 in
      match setValue_py multiplicity (sb_mult self) with
      | None => self
      | Some sb' => with_mult sb' self
      end
  end.

(** [load_defaults] as it runs: [None] when an [OverflowError] leaves it. *)
Definition load_defaults_py (environ : gmap string string) (main_window : MainWindow)
    (self : OrcaInputDialog) : option OrcaInputDialog :=
  match load_override_py environ NPROCS_VAR (sb_nprocs self) with
  | None => None
  | Some nprocs =>
      let self := with_nprocs nprocs self in
      match load_override_py environ MAXCORE_VAR (sb_maxcore self) with
      | None => None
      | Some maxcore =>
          let self := with_maxcore maxcore self in
          match current_mol main_window with
          | Some mol => Some (estimate_py mol self)
          | None => Some self
          end
      end
  end.

(** [OrcaInputDialog(main_window)] as it runs. *)
Definition init_py (environ : gmap string string) (main_window : MainWindow)
  : option OrcaInputDialog :=
  load_defaults_py environ main_window setup_ui.

(** An override that parses to an integer outside the C [int] range. *)
Definition overflowing (environ : gmap string string) (name : string) : Prop :=
  exists v, override_value environ name = Some v /\ fits_c_int v = false.

(** The name offered by the save dialog of [generate_file]: the base name of
    the current file without its extension, or [orca_input], then the
    stripped suffix field, then [.inp]. An empty [current_file_path] counts
    as none. *)
Definition default_name (self : OrcaInputDialog) (main_window : MainWindow) : string :=
  let suffix := Py.strip (le_suffix self) in
  match current_file_path main_window with
  | Some (String c r as path) =>
      let base_name := fst (OsPath.splitext (OsPath.basename path)) in
      base_name +:+ suffix +:+ ".inp"
  | _ => "orca_input" +:+ suffix +:+ ".inp"
  end.

(** [browse_template]: [picked] is the path the open dialog returns, empty
    when it is cancelled. *)
Definition browse_template (picked : string) (self : OrcaInputDialog)
  : OrcaInputDialog :=
  if String.eqb picked EmptyString then self else with_template picked self.

(** [run]: without a molecule a warning is shown and no dialog is built;
    with one, the dialog is built ([None]: the constructor raised). *)
Definition run (environ : gmap string string) (main_window : MainWindow)
  : Outcome + option OrcaInputDialog :=
  match current_mol main_window with
  | None => inl (Warning "No molecule loaded.")
  | Some _ => inr (init_py environ main_window)
  end.

(** What happens while the dialog is open ([dialog.exec()]): the user edits
    the form, browses for a template, presses Generate (answering the save
    dialog with [save_as]) or presses Cancel. *)
Inductive Event :=
| Edit (e : UserEdit)
| Browse (picked : string)
| Generate (save_as : string)
| Reject.

(** The dialog with the file system around it: [closed] after [accept()]
    or [reject()], [shown] the outcomes displayed so far, oldest first. *)
Record Session := mkSession {
  form : OrcaInputDialog;
  files : gmap string Node;
  closed : bool;
  shown : list Outcome
}.

Definition is_information (o : Outcome) : bool :=
  match o with
  | Information _ => true
  | _ => false
  end.

(** One event. A closed dialog takes no more events; a successful
    generation closes it ([self.accept()]), and so does Cancel. *)
Definition step (main_window : MainWindow) (s : Session) (ev : Event) : Session :=
  if closed s then s
  else
    match ev with
    | Edit e => mkSession (apply_edit (form s) e) (files s) false (shown s)
    | Browse picked => mkSession (browse_template picked (form s)) (files s) false (shown s)
    | Generate save_as =>
        let '(o, fs') := generate_file (form s) main_window save_as (files s) in
        mkSession (form s) fs' (is_information o) (shown s ++ [o])
    | Reject => mkSession (form s) (files s) true (shown s)
    end.

(** A dialog taken through a list of events. *)
Definition session (main_window : MainWindow) (dialog : OrcaInputDialog)
    (fs : gmap string Node) (events : list Event) : Session :=
  fold_left (step main_window) events (mkSession dialog fs false []).

(** Does the event put a path into the template field? *)
Definition picks_template (ev : Event) : bool :=
  match ev with
  | Edit (EditTemplate path) => negb (String.eqb path EmptyString)
  | Browse picked => negb (String.eqb picked EmptyString)
  | _ => false
  end.

(** Do the [fuel] integers from [z] on print within the digit limit? *)
Fixpoint within_digit_limit_upto (fuel : nat) (z : Z) : bool :=
  match fuel with
  | O => true
  | S fuel' =>
      (Py.digit_count (Py.str_of_int z) <=? Py.int_max_str_digits)%N
      && within_digit_limit_upto fuel' (z + 1)
  end.

(** Does a string hold the character [c]? *)
Fixpoint str_contains (c : ascii) (s : string) : bool :=
  match s with
  | EmptyString => false
  | String x r => Ascii.eqb x c || str_contains c r
  end.

Module Sample2.

(** A form with the suffix [_opt] and a structure file [/data/water.v2.xyz]. *)
Definition suffixed : OrcaInputDialog := apply_edit Sample.dialog (EditSuffix " _opt ").
Definition window_with_file : MainWindow :=
  mkMainWindow (Some Sample.mol) (Some "/data/water.v2.xyz"%string).


(** A file system where the chosen output path is a directory. *)
Definition fs_with_dir : gmap string Node := <["results" := Dir]> Sample.fs.

(** A file system where the template path is a directory. *)
Definition fs_template_dir : gmap string Node := {[ Sample.template_path := Dir ]}.

End Sample2.

(** ** Facts about strings *)

Section StringFacts.

Lemma append_assoc_s (a b c : string) : (a +:+ b) +:+ c = a +:+ (b +:+ c).
Proof. induction a as [|x a IH]; simpl; [reflexivity | now rewrite IH]. Qed.

Lemma append_nil_r_s (a : string) : a +:+ EmptyString = a.
Proof. induction a as [|x a IH]; simpl; [reflexivity | now rewrite IH]. Qed.

Lemma string_forall_app p (a b : string) :
  string_forall p (a +:+ b) = string_forall p a && string_forall p b.
Proof.
  induction a as [|x a IH]; simpl; [reflexivity|].
  rewrite IH. now rewrite andb_assoc.
Qed.

Lemma string_forall_impl (p q : ascii -> bool) (s : string) :
  (forall c, p c = true -> q c = true) ->
  string_forall p s = true -> string_forall q s = true.
Proof.
  intros Hpq. induction s as [|x s IH]; simpl; [reflexivity|].
  intros H. apply andb_true_iff in H as [Hx Hs].
  apply andb_true_iff. split; [now apply Hpq | now apply IH].
Qed.

Lemma newline_isspace : Py.isspace Py.newline = true.
Proof. reflexivity. Qed.

Lemma no_space_no_newline (s : string) : no_space s = true -> no_newline s = true.
Proof.
  apply string_forall_impl. intros c Hc.
  destruct (Ascii.eqb_spec c Py.newline) as [->|]; [|reflexivity].
  now rewrite newline_isspace in Hc.
Qed.

(** *** Splitting into lines *)

Lemma split_nl_nonempty (s : string) : Py.split_nl s <> [].
Proof.
  destruct s as [|c r]; simpl; [discriminate|].
  destruct (Ascii.eqb c Py.newline); [discriminate|].
  destruct (Py.split_nl r); discriminate.
Qed.

Lemma split_nl_single (s : string) : no_newline s = true -> Py.split_nl s = [s].
Proof.
  induction s as [|c r IH]; simpl; [reflexivity|].
  intros H. apply andb_true_iff in H as [Hc Hr].
  apply negb_true_iff in Hc. rewrite Hc, (IH Hr). reflexivity.
Qed.

Lemma split_nl_app (a b : string) :
  Py.split_nl (a +:+ String Py.newline b) = Py.split_nl a ++ Py.split_nl b.
Proof.
  induction a as [|c a IH]; simpl.
  - reflexivity.
  - destruct (Ascii.eqb c Py.newline); rewrite IH; [reflexivity|].
    pose proof (split_nl_nonempty a) as Hne.
    destruct (Py.split_nl a); [contradiction | reflexivity].
Qed.

Lemma split_nl_cons_length (c : ascii) (r : string) :
  length (Py.split_nl (String c r))
  = if Ascii.eqb c Py.newline then S (length (Py.split_nl r))
    else length (Py.split_nl r).
Proof.
  simpl. destruct (Ascii.eqb c Py.newline); [reflexivity|].
  pose proof (split_nl_nonempty r) as Hne.
  destruct (Py.split_nl r); [contradiction | reflexivity].
Qed.

Lemma split_nl_join (l : list string) :
  l <> [] -> Forall (fun x => no_newline x = true) l ->
  Py.split_nl (Py.join_nl l) = l.
Proof.
  induction l as [|x l IH]; [contradiction|].
  intros _ Hall. inversion Hall as [|? ? Hx Hl]; subst.
  destruct l as [|y l].
  - simpl. now apply split_nl_single.
  - change (Py.join_nl (x :: y :: l)) with (x +:+ String Py.newline (Py.join_nl (y :: l))).
    rewrite split_nl_app, (split_nl_single x Hx), IH; [reflexivity | discriminate | exact Hl].
Qed.

(** *** Stripping *)

Lemma lstrip_decompose (s : string) :
  exists l, s = l +:+ Py.lstrip s /\ all_space l = true.
Proof.
  induction s as [|c r [l [Hl Hs]]]; simpl.
  - exists EmptyString. split; reflexivity.
  - destruct (Py.isspace c) eqn:Hc.
    + exists (String c l). split; [simpl; f_equal; exact Hl|].
      unfold all_space. simpl. now rewrite Hc.
    + exists EmptyString. split; reflexivity.
Qed.

Lemma rstrip_decompose (s : string) :
  exists r, s = Py.rstrip s +:+ r /\ all_space r = true.
Proof.
  induction s as [|c s [r [Hr Hs]]]; simpl.
  - exists EmptyString. split; reflexivity.
  - destruct (Py.rstrip s) as [|c' s'] eqn:Hrs.
    + destruct (Py.isspace c) eqn:Hc.
      * exists (String c r). split; [simpl; f_equal; exact Hr|].
        unfold all_space. simpl. now rewrite Hc.
      * exists r. split; [simpl; f_equal; exact Hr | exact Hs].
    + exists r. split; [simpl; f_equal; exact Hr | exact Hs].
Qed.

Lemma lstrip_nonspace (c : ascii) (r : string) :
  Py.isspace c = false -> Py.lstrip (String c r) = String c r.
Proof. intros H. simpl. now rewrite H. Qed.

Lemma lstrip_prefix (a b : string) :
  a <> EmptyString -> no_space a = true -> Py.lstrip (a +:+ b) = a +:+ b.
Proof.
  destruct a as [|c a]; [contradiction|]. intros _ H.
  unfold no_space in H. simpl in H. apply andb_true_iff in H as [Hc _].
  apply negb_true_iff in Hc. simpl. now rewrite Hc.
Qed.

Lemma rstrip_snoc_space (s : string) (c : ascii) :
  Py.isspace c = true -> Py.rstrip (s +:+ String c EmptyString) = Py.rstrip s.
Proof.
  intros Hc. induction s as [|x s IH]; simpl.
  - now rewrite Hc.
  - now rewrite IH.
Qed.

Lemma rstrip_snoc_nonspace (s : string) (c : ascii) :
  Py.isspace c = false ->
  Py.rstrip (s +:+ String c EmptyString) = s +:+ String c EmptyString.
Proof.
  intros Hc. induction s as [|x s IH]; simpl.
  - now rewrite Hc.
  - rewrite IH. destruct s; reflexivity.
Qed.

Lemma rstrip_head (c : ascii) (r : string) :
  Py.isspace c = false -> exists r', Py.rstrip (String c r) = String c r'.
Proof.
  intros Hc. simpl. destruct (Py.rstrip r) as [|c' r'].
  - rewrite Hc. now exists EmptyString.
  - now exists (String c' r').
Qed.

Lemma rstrip_idempotent (s : string) : Py.rstrip (Py.rstrip s) = Py.rstrip s.
Proof.
  induction s as [|c s IH]; simpl; [reflexivity|].
  destruct (Py.rstrip s) as [|c' s'] eqn:Hrs.
  - destruct (Py.isspace c) eqn:Hc; simpl; [reflexivity | now rewrite Hc].
  - simpl. simpl in IH. rewrite IH. reflexivity.
Qed.

Lemma lstrip_strip (s : string) : Py.lstrip (Py.strip s) = Py.strip s.
Proof.
  unfold Py.strip.
  assert (H : Py.lstrip s = EmptyString
              \/ exists c r, Py.lstrip s = String c r /\ Py.isspace c = false).
  { induction s as [|c r IH]; simpl; [now left|].
    destruct (Py.isspace c) eqn:Hc; [exact IH|]. right. now exists c, r. }
  destruct H as [-> | (c & r & -> & Hc)]; [reflexivity|].
  destruct (rstrip_head c r Hc) as [r' ->]. now apply lstrip_nonspace.
Qed.

Lemma rstrip_strip (s : string) : Py.rstrip (Py.strip s) = Py.strip s.
Proof. unfold Py.strip. apply rstrip_idempotent. Qed.

Lemma strip_decompose (s : string) :
  exists l r, s = l +:+ Py.strip s +:+ r /\ all_space l = true /\ all_space r = true.
Proof.
  destruct (lstrip_decompose s) as [l [Hl Hls]].
  destruct (rstrip_decompose (Py.lstrip s)) as [r [Hr Hrs]].
  exists l, r. unfold Py.strip. now rewrite <- Hr.
Qed.

Lemma rstrip_lines_le (s : string) :
  (length (Py.split_nl (Py.rstrip s)) <= length (Py.split_nl s))%nat.
Proof.
  induction s as [|c s IH]; [simpl; lia|].
  rewrite split_nl_cons_length.
  cbn [Py.rstrip]. destruct (Py.rstrip s) as [|c' s'] eqn:Hrs.
  - destruct (Py.isspace c) eqn:Hc.
    + pose proof (split_nl_nonempty s) as Hne.
      destruct (Py.split_nl s); [contradiction|].
      destruct (Ascii.eqb c Py.newline); simpl; lia.
    + destruct (Ascii.eqb_spec c Py.newline) as [->|Hn].
      * now rewrite newline_isspace in Hc.
      * apply Ascii.eqb_neq in Hn. simpl. rewrite Hn. simpl.
        pose proof (split_nl_nonempty s) as Hne.
        destruct (Py.split_nl s); [contradiction | simpl; lia].
  - rewrite split_nl_cons_length.
    destruct (Ascii.eqb c Py.newline); lia.
Qed.

End StringFacts.

(** ** Facts about printed numbers and atom lines *)

Section PrintingFacts.

Lemma uint_no_space (d : Decimal.uint) :
  no_space (NilEmpty.string_of_uint d) = true.
Proof. induction d; simpl; auto. Qed.

Lemma str_of_int_no_space (n : Z) : no_space (Py.str_of_int n) = true.
Proof.
  unfold Py.str_of_int.
  destruct (Z.to_int n) as [d|d]; destruct d; try reflexivity;
    unfold no_space; cbn -[Py.isspace NilEmpty.string_of_uint];
    apply (uint_no_space d).
Qed.

Lemma str_of_int_nonempty (n : Z) : Py.str_of_int n <> EmptyString.
Proof.
  unfold Py.str_of_int.
  destruct (Z.to_int n) as [d|d]; destruct d; simpl; discriminate.
Qed.

Lemma str_of_int_no_newline (n : Z) : no_newline (Py.str_of_int n) = true.
Proof. apply no_space_no_newline, str_of_int_no_space. Qed.

Lemma digit_char_nonspace (d : Z) :
  0 <= d <= 9 -> Py.isspace (Chem.digit_char d) = false.
Proof.
  intros H.
  assert (Hd : d = 0 \/ d = 1 \/ d = 2 \/ d = 3 \/ d = 4 \/ d = 5 \/ d = 6
               \/ d = 7 \/ d = 8 \/ d = 9) by lia.
  repeat (destruct Hd as [-> | Hd]; [reflexivity|]). now subst.
Qed.

Lemma mod10_digit_nonspace (n : Z) : Py.isspace (Chem.digit_char (n mod 10)) = false.
Proof. apply digit_char_nonspace. pose proof (Z.mod_pos_bound n 10). lia. Qed.

Lemma fixed_digits_no_space (w : nat) (n : Z) :
  no_space (Chem.fixed_digits w n) = true.
Proof.
  revert n. induction w as [|w IH]; intros n; simpl; [reflexivity|].
  unfold no_space in *. rewrite string_forall_app, IH. simpl.
  now rewrite mod10_digit_nonspace.
Qed.

Lemma format_coord_no_space (v : Z) : no_space (Chem.format_coord v) = true.
Proof.
  unfold Chem.format_coord, no_space.
  rewrite !string_forall_app.
  fold (no_space (Py.str_of_int (Z.abs v / 1000000))).
  fold (no_space (Chem.fixed_digits 6 (Z.abs v mod 1000000))).
  rewrite str_of_int_no_space, fixed_digits_no_space.
  destruct (v <? 0); reflexivity.
Qed.

(** A printed coordinate ends with a digit. *)
Lemma format_coord_last (v : Z) :
  exists s d, Chem.format_coord v = s +:+ String d EmptyString
              /\ Py.isspace d = false.
Proof.
  unfold Chem.format_coord.
  change (Chem.fixed_digits 6 (Z.abs v mod 1000000))
    with (Chem.fixed_digits 5 (Z.abs v mod 1000000 / 10)
          +:+ String (Chem.digit_char ((Z.abs v mod 1000000) mod 10)) EmptyString).
  eexists _, _. split; [|apply mod10_digit_nonspace].
  rewrite <- !append_assoc_s. reflexivity.
Qed.

Lemma atom_line_last (a : Chem.Atom) :
  exists s d, Chem.atom_line a = s +:+ String d EmptyString
              /\ Py.isspace d = false.
Proof.
  unfold Chem.atom_line.
  destruct (format_coord_last (Chem.pos_z a)) as (s & d & -> & Hd).
  eexists _, d. split; [|exact Hd].
  rewrite <- !append_assoc_s. reflexivity.
Qed.

Lemma atom_line_no_newline (a : Chem.Atom) :
  no_newline (Chem.GetSymbol a) = true -> no_newline (Chem.atom_line a) = true.
Proof.
  intros Hs. unfold Chem.atom_line, no_newline.
  rewrite !string_forall_app.
  fold (no_newline (Chem.GetSymbol a)). rewrite Hs.
  fold (no_newline (Chem.format_coord (Chem.pos_x a))).
  fold (no_newline (Chem.format_coord (Chem.pos_y a))).
  fold (no_newline (Chem.format_coord (Chem.pos_z a))).
  rewrite !(no_space_no_newline _ (format_coord_no_space _)). reflexivity.
Qed.

Lemma first_field_prefix (a b : string) :
  no_space a = true -> first_field (a +:+ String " "%char b) = a.
Proof.
  induction a as [|c a IH]; simpl; [reflexivity|].
  intros H. unfold no_space in H. simpl in H.
  apply andb_true_iff in H as [Hc Ha]. apply negb_true_iff in Hc.
  rewrite Hc. f_equal. now apply IH.
Qed.

Lemma first_field_atom_line (a : Chem.Atom) :
  no_space (Chem.GetSymbol a) = true ->
  first_field (Chem.atom_line a) = Chem.GetSymbol a.
Proof. intros H. unfold Chem.atom_line. now apply first_field_prefix. Qed.

Lemma atom_lines_text_join (l : list Chem.Atom) :
  l <> [] ->
  Chem.atom_lines_text l = Py.join_nl (map Chem.atom_line l) +:+ Py.nl.
Proof.
  induction l as [|a l IH]; [contradiction|]. intros _.
  destruct l as [|b l].
  - simpl. reflexivity.
  - change (Chem.atom_lines_text (a :: b :: l))
      with (Chem.atom_line a +:+ Py.nl +:+ Chem.atom_lines_text (b :: l)).
    rewrite IH by discriminate.
    change (Py.join_nl (map Chem.atom_line (a :: b :: l)))
      with (Chem.atom_line a +:+ Py.nl +:+ Py.join_nl (map Chem.atom_line (b :: l))).
    now rewrite !append_assoc_s.
Qed.

Lemma join_nl_last (l : list Chem.Atom) :
  l <> [] ->
  exists s d, Py.join_nl (map Chem.atom_line l) = s +:+ String d EmptyString
              /\ Py.isspace d = false.
Proof.
  induction l as [|a l IH]; [contradiction|]. intros _.
  destruct l as [|b l].
  - simpl. apply atom_line_last.
  - destruct IH as (s & d & Hs & Hd); [discriminate|].
    exists (Chem.atom_line a +:+ Py.nl +:+ s), d. split; [|exact Hd].
    change (Py.join_nl (map Chem.atom_line (a :: b :: l)))
      with (Chem.atom_line a +:+ Py.nl +:+ Py.join_nl (map Chem.atom_line (b :: l))).
    rewrite Hs. now rewrite !append_assoc_s.
Qed.

End PrintingFacts.

(** ** The XYZ block and the coordinate lines taken from it *)

Section CoordinateFacts.

Lemma nl_app (x : string) : Py.nl +:+ x = String Py.newline x.
Proof. reflexivity. Qed.

Lemma split_nl_newline (x : string) :
  Py.split_nl (String Py.newline x) = EmptyString :: Py.split_nl x.
Proof. reflexivity. Qed.

(** For a molecule with atoms, stripping the block removes its final line
    break and nothing else. *)
Lemma strip_xyz_block (mol : Chem.Mol) :
  Chem.GetAtoms mol <> [] ->
  Py.strip (Chem.MolToXYZBlock mol)
  = Py.str_of_int (Z.of_nat (Chem.GetNumAtoms mol))
    +:+ String Py.newline
          (Chem.mol_name mol
           +:+ String Py.newline (Py.join_nl (map Chem.atom_line (Chem.GetAtoms mol)))).
Proof.
  intros Hne. unfold Chem.MolToXYZBlock, Py.strip.
  rewrite lstrip_prefix
    by (apply str_of_int_nonempty || apply str_of_int_no_space).
  rewrite (atom_lines_text_join _ Hne).
  destruct (join_nl_last _ Hne) as (s & d & -> & Hd).
  set (cnt := Py.str_of_int _).
  replace (cnt +:+ Py.nl +:+ Chem.mol_name mol +:+ Py.nl
           +:+ (s +:+ String d EmptyString) +:+ Py.nl)
    with ((cnt +:+ Py.nl +:+ Chem.mol_name mol +:+ Py.nl
           +:+ s +:+ String d EmptyString) +:+ String Py.newline EmptyString)
    by (rewrite !append_assoc_s; reflexivity).
  rewrite (rstrip_snoc_space _ _ newline_isspace).
  replace (cnt +:+ Py.nl +:+ Chem.mol_name mol +:+ Py.nl
           +:+ s +:+ String d EmptyString)
    with ((cnt +:+ Py.nl +:+ Chem.mol_name mol +:+ Py.nl +:+ s)
          +:+ String d EmptyString)
    by (rewrite !append_assoc_s; reflexivity).
  rewrite (rstrip_snoc_nonspace _ _ Hd).
  rewrite !append_assoc_s. reflexivity.
Qed.

Lemma xyz_lines (mol : Chem.Mol) :
  Chem.GetAtoms mol <> [] ->
  no_newline (Chem.mol_name mol) = true ->
  Forall (fun a => no_newline (Chem.GetSymbol a) = true) (Chem.GetAtoms mol) ->
  Py.split_nl (Py.strip (Chem.MolToXYZBlock mol))
  = Py.str_of_int (Z.of_nat (Chem.GetNumAtoms mol))
    :: Chem.mol_name mol :: map Chem.atom_line (Chem.GetAtoms mol).
Proof.
  intros Hne Hname Hsym.
  rewrite (strip_xyz_block _ Hne), !split_nl_app.
  rewrite (split_nl_single _ (str_of_int_no_newline _)), (split_nl_single _ Hname).
  rewrite split_nl_join; [reflexivity | | ].
  - destruct (Chem.GetAtoms mol); [contradiction | discriminate].
  - clear Hne. induction Hsym as [|a l Ha _ IH]; simpl; constructor.
    + now apply atom_line_no_newline.
    + exact IH.
Qed.

Lemma coords_data_atoms (mol : Chem.Mol) :
  Chem.GetAtoms mol <> [] ->
  no_newline (Chem.mol_name mol) = true ->
  Forall (fun a => no_newline (Chem.GetSymbol a) = true) (Chem.GetAtoms mol) ->
  coords_data_of (Chem.MolToXYZBlock mol)
  = Py.join_nl (map Chem.atom_line (Chem.GetAtoms mol)).
Proof.
  intros Hne Hname Hsym. unfold coords_data_of.
  rewrite (xyz_lines _ Hne Hname Hsym).
  destruct (Chem.GetAtoms mol); [contradiction | reflexivity].
Qed.

(** Without atoms the stripped block has at most two lines, and no
    coordinate line is taken from it. *)
Lemma coords_data_no_atoms (mol : Chem.Mol) :
  Chem.GetAtoms mol = [] ->
  no_newline (Chem.mol_name mol) = true ->
  coords_data_of (Chem.MolToXYZBlock mol) = EmptyString.
Proof.
  intros Hno Hname. unfold coords_data_of, Chem.MolToXYZBlock, Chem.GetNumAtoms.
  rewrite Hno. cbn [length Chem.atom_lines_text Z.of_nat].
  rewrite append_nil_r_s.
  change (Py.str_of_int (Z.of_nat 0) +:+ Py.nl +:+ Chem.mol_name mol +:+ Py.nl)
    with (String "0" (String Py.newline (Chem.mol_name mol +:+ Py.nl))).
  unfold Py.strip. rewrite lstrip_nonspace by reflexivity.
  change (String "0" (String Py.newline (Chem.mol_name mol +:+ Py.nl)))
    with ((String "0" (String Py.newline (Chem.mol_name mol)))
          +:+ String Py.newline EmptyString).
  rewrite (rstrip_snoc_space _ _ newline_isspace).
  set (blk := String "0" (String Py.newline (Chem.mol_name mol))).
  assert (Hlen : length (Py.split_nl blk) = 2%nat).
  { change blk with (String "0" EmptyString +:+ String Py.newline (Chem.mol_name mol)).
    rewrite split_nl_app, (split_nl_single _ Hname). reflexivity. }
  pose proof (rstrip_lines_le blk) as Hle.
  destruct (Nat.ltb_spec 2 (length (Py.split_nl (Py.rstrip blk)))) as [Hlt|_];
    [lia | reflexivity].
Qed.

End CoordinateFacts.

(** ** The layout of the document *)

Section DocumentFacts.

Lemma comment_line_no_newline : no_newline comment_line = true.
Proof. reflexivity. Qed.

Lemma pal_line_no_newline (n : Z) : no_newline (pal_line n) = true.
Proof.
  unfold pal_line, no_newline. rewrite !string_forall_app.
  fold (no_newline (Py.str_of_int n)). now rewrite str_of_int_no_newline.
Qed.

Lemma maxcore_line_no_newline (m : Z) : no_newline (maxcore_line m) = true.
Proof.
  unfold maxcore_line, no_newline. rewrite !string_forall_app.
  fold (no_newline (Py.str_of_int m)). now rewrite str_of_int_no_newline.
Qed.

Lemma xyz_header_no_newline (c mu : Z) : no_newline (xyz_header c mu) = true.
Proof.
  unfold xyz_header, no_newline. rewrite !string_forall_app.
  fold (no_newline (Py.str_of_int c)). fold (no_newline (Py.str_of_int mu)).
  now rewrite !str_of_int_no_newline.
Qed.

Lemma document_blocks (n m : Z) (t : string) (c mu : Z) (coords : string) :
  document n m t c mu coords
  = preamble n m +:+ t +:+ Py.nl +:+ Py.nl +:+ coordinate_block c mu coords.
Proof.
  unfold document, preamble, coordinate_block.
  rewrite !append_assoc_s. reflexivity.
Qed.

Lemma document_lines (n m : Z) (t : string) (c mu : Z) (coords : string) :
  Py.split_nl (document n m t c mu coords)
  = [comment_line; pal_line n; maxcore_line m; EmptyString]
    ++ Py.split_nl t
    ++ [EmptyString; xyz_header c mu]
    ++ Py.split_nl coords
    ++ ["*"%string; EmptyString].
Proof.
  unfold document. rewrite !append_assoc_s, !nl_app.
  change ("*" +:+ Py.nl) with ("*" +:+ String Py.newline EmptyString).
  repeat (rewrite split_nl_app || rewrite split_nl_newline).
  rewrite (split_nl_single _ comment_line_no_newline),
    (split_nl_single _ (pal_line_no_newline n)),
    (split_nl_single _ (maxcore_line_no_newline m)),
    (split_nl_single _ (xyz_header_no_newline c mu)).
  reflexivity.
Qed.

End DocumentFacts.

(** ** The spin boxes stay inside their declared ranges *)

Section RangeFacts.

Lemma bound_between (lo hi v : Z) : lo <= hi -> lo <= Qt.bound lo hi v <= hi.
Proof. unfold Qt.bound. lia. Qed.

Lemma bound_inside (lo hi v : Z) : lo <= v <= hi -> Qt.bound lo hi v = v.
Proof. unfold Qt.bound. lia. Qed.

Lemma setValue_in_range (lo hi v : Z) (sb : Qt.QSpinBox) :
  lo <= hi -> in_range lo hi sb -> in_range lo hi (Qt.setValue v sb).
Proof.
  intros Hle (Hmin & Hmax & _). unfold in_range, Qt.setValue. cbn.
  rewrite Hmin, Hmax. repeat split; try apply bound_between; assumption.
Qed.

Lemma load_override_in_range (environ : gmap string string) (name : string)
    (lo hi : Z) (sb : Qt.QSpinBox) :
  lo <= hi -> in_range lo hi sb -> in_range lo hi (load_override environ name sb).
Proof.
  intros Hle Hsb. unfold load_override.
  destruct (environ !! name) as [text|]; [|exact Hsb].
  destruct (Py.int_of_str text); [now apply setValue_in_range | exact Hsb].
Qed.

Lemma setup_ui_ranges : within_declared_ranges setup_ui.
Proof.
  unfold within_declared_ranges, in_range.
  repeat split; solve [reflexivity | vm_compute; discriminate].
Qed.

Lemma load_defaults_ranges (environ : gmap string string) (mw : MainWindow)
    (self : OrcaInputDialog) :
  within_declared_ranges self ->
  within_declared_ranges (load_defaults environ mw self).
Proof.
  intros (Hc & Hm & Hn & Hx). unfold load_defaults.
  destruct (current_mol mw) as [mol|];
    (split; [|split; [|split]]); cbn -[in_range];
    first [ assumption
          | apply setValue_in_range; [lia | assumption]
          | apply load_override_in_range; [lia | assumption] ].
Qed.

Lemma apply_edit_ranges (self : OrcaInputDialog) (e : UserEdit) :
  within_declared_ranges self -> within_declared_ranges (apply_edit self e).
Proof.
  intros (Hc & Hm & Hn & Hx).
  destruct e; (split; [|split; [|split]]); cbn -[in_range];
    first [ assumption | apply setValue_in_range; [lia | assumption] ].
Qed.

Lemma edits_ranges (edits : list UserEdit) (self : OrcaInputDialog) :
  within_declared_ranges self ->
  within_declared_ranges (fold_left apply_edit edits self).
Proof.
  revert self. induction edits as [|e edits IH]; intros self H; simpl.
  - exact H.
  - apply IH. now apply apply_edit_ranges.
Qed.


Lemma occurrences_app (x : string) (l1 l2 : list string) :
  occurrences x (l1 ++ l2) = (occurrences x l1 + occurrences x l2)%nat.
Proof.
  induction l1 as [|y l1 IH]; simpl; [reflexivity|].
  destruct (String.eqb x y); rewrite IH; reflexivity.
Qed.

End RangeFacts.

(** ** Properties of the generated document *)

(** C1. For the request of the spec's example (atoms O at the origin and H
    at x = 0.96, charge 0, multiplicity 1, 4 processes, 2000 MB, template
    text "! B3LYP def2-SVP") the rendered document is exactly the text of
    the spec, and a run of [generate_file] writes that text to the chosen
    path and reports success. *)
Theorem round_trip_example :
  (Qt.value (sb_charge Sample.dialog), Qt.value (sb_mult Sample.dialog),
   Qt.value (sb_nprocs Sample.dialog), Qt.value (sb_maxcore Sample.dialog))
  = (0, 1, 4, 2000)
  /\ render Sample.dialog Sample.template_text Sample.mol = Sample.expected
  /\ generate_file Sample.dialog Sample.window "water.inp" Sample.fs
     = (Information ("Input file generated:" +:+ Py.nl +:+ "water.inp"),
        <["water.inp" := File Sample.expected]> Sample.fs).
Proof. repeat split; vm_compute; reflexivity. Qed.

(** The directive lines differ from every other line the generator writes
    by itself. *)
Lemma pal_line_own_occurrence (n m : Z) :
  occurrences (pal_line n) [comment_line; pal_line n; maxcore_line m; EmptyString] = 1%nat.
Proof.
  cbn [occurrences]. rewrite String.eqb_refl.
  change (String.eqb (pal_line n) comment_line) with false.
  change (String.eqb (pal_line n) (maxcore_line m)) with false.
  change (String.eqb (pal_line n) EmptyString) with false.
  reflexivity.
Qed.

Lemma maxcore_line_own_occurrence (n m : Z) :
  occurrences (maxcore_line m) [comment_line; pal_line n; maxcore_line m; EmptyString] = 1%nat.
Proof.
  cbn [occurrences]. rewrite String.eqb_refl.
  change (String.eqb (maxcore_line m) comment_line) with false.
  change (String.eqb (maxcore_line m) (pal_line n)) with false.
  change (String.eqb (maxcore_line m) EmptyString) with false.
  reflexivity.
Qed.

Lemma directive_not_in_frame (x : string) (c mu : Z) :
  (exists r, x = String "%"%char r) ->
  occurrences x [EmptyString; xyz_header c mu] = O
  /\ occurrences x ["*"%string; EmptyString] = O.
Proof. intros [r ->]. split; reflexivity. Qed.

(** C2, as the code has it. The second line of the document is the
    [%pal nprocs <nprocs> end] directive and the third is the
    [%MaxCore <maxcore>] directive; the template block starts on the fifth
    line, after both. The generator writes each directive once and copies the
    template without reading it: the number of lines equal to a directive is
    one plus the number of such lines inside the trimmed template and inside
    the coordinate lines. *)
Theorem directives_precede_template (self : OrcaInputDialog)
    (template_text : string) (mol : Chem.Mol) :
  let n := Qt.value (sb_nprocs self) in
  let m := Qt.value (sb_maxcore self) in
  let t := Py.split_nl (Py.strip template_text) in
  let xyz := Py.split_nl (coords_data_of (Chem.MolToXYZBlock mol)) in
  let out := Py.split_nl (render self template_text mol) in
  nth_error out 1 = Some (pal_line n)
  /\ nth_error out 2 = Some (maxcore_line m)
  /\ firstn (length t) (skipn 4 out) = t
  /\ occurrences (pal_line n) out
     = (1 + occurrences (pal_line n) t + occurrences (pal_line n) xyz)%nat
  /\ occurrences (maxcore_line m) out
     = (1 + occurrences (maxcore_line m) t + occurrences (maxcore_line m) xyz)%nat.
Proof.
  intros n m t xyz out. subst out. unfold render.
  rewrite document_lines. fold n m t xyz.
  repeat split.
  - cbn [app skipn]. apply take_app_length.
  - rewrite !occurrences_app, pal_line_own_occurrence.
    destruct (directive_not_in_frame (pal_line n)
                (Qt.value (sb_charge self)) (Qt.value (sb_mult self))) as [-> ->];
      [eexists; reflexivity | lia].
  - rewrite !occurrences_app, maxcore_line_own_occurrence.
    destruct (directive_not_in_frame (maxcore_line m)
                (Qt.value (sb_charge self)) (Qt.value (sb_mult self))) as [-> ->];
      [eexists; reflexivity | lia].
Qed.

(** C2 fails as stated: with a template that has a [%pal nprocs 4 end] line
    of its own and 4 processes, the document holds that line twice. *)
Lemma pal_directive_twice :
  Py.strip Sample.pal_template <> EmptyString
  /\ within_declared_ranges Sample.dialog
  /\ occurrences (pal_line (Qt.value (sb_nprocs Sample.dialog)))
       (Py.split_nl (render Sample.dialog Sample.pal_template Sample.mol)) = 2%nat.
Proof.
  split; [vm_compute; discriminate|]. split; [|vm_compute; reflexivity].
  apply edits_ranges, load_defaults_ranges, setup_ui_ranges.
Qed.

(** ** Runs of [generate_file] *)

(** A run whose template can be read and whose output path can be written
    succeeds and leaves the rendered document at the chosen path. *)
Lemma generate_file_writes (self : OrcaInputDialog) (mw : MainWindow)
    (mol : Chem.Mol) (save_as text : string) (fs : gmap string Node) :
  le_template self <> EmptyString ->
  fs !! le_template self = Some (File text) ->
  current_mol mw = Some mol ->
  save_as <> EmptyString ->
  fs !! save_as <> Some Dir ->
  generate_file self mw save_as fs
  = (Information ("Input file generated:" +:+ Py.nl +:+ save_as),
     <[save_as := File (render self text mol)]> fs).
Proof.
  intros Hpath Hfile Hmol Hsave Hdir. unfold generate_file.
  apply String.eqb_neq in Hpath. apply String.eqb_neq in Hsave.
  unfold Os.path_exists. rewrite Hpath, Hfile, Hmol, Hsave. cbn.
  unfold try_generate, Os.read_text. rewrite Hfile. cbn.
  unfold Os.write_text.
  destruct (fs !! save_as) as [[text'|]|]; [reflexivity | contradiction | reflexivity].
Qed.

(** In this file system, where the writes of a run happen together, a run
    that does not end in success leaves every file as it was. *)
Lemma generate_file_failure_keeps_files (self : OrcaInputDialog) (mw : MainWindow)
    (save_as : string) (fs : gmap string Node) :
  (exists message, fst (generate_file self mw save_as fs) = Information message)
  \/ snd (generate_file self mw save_as fs) = fs.
Proof.
  unfold generate_file.
  destruct (String.eqb (le_template self) EmptyString
            || negb (Os.path_exists fs (le_template self))); [now right|].
  destruct (current_mol mw) as [mol|]; [|now right].
  destruct (String.eqb save_as EmptyString); [now right|].
  destruct (try_generate self mol (le_template self) save_as fs);
    [left; eexists; reflexivity | now right].
Qed.

(** X16. A template path that exists as a directory passes the existence
    test; the run then fails when it opens the template, after the save
    dialog was answered and before anything is written. *)
Lemma template_directory_fails (self : OrcaInputDialog) (mw : MainWindow)
    (mol : Chem.Mol) (save_as : string) (fs : gmap string Node) :
  le_template self <> EmptyString ->
  fs !! le_template self = Some Dir ->
  current_mol mw = Some mol ->
  save_as <> EmptyString ->
  generate_file self mw save_as fs
  = (Critical (IsADirectoryError (le_template self)), fs).
Proof.
  intros Hpath Hdir Hmol Hsave. unfold generate_file.
  apply String.eqb_neq in Hpath. apply String.eqb_neq in Hsave.
  unfold Os.path_exists. rewrite Hpath, Hdir, Hmol, Hsave. cbn.
  unfold try_generate, Os.read_text. now rewrite Hdir.
Qed.

(** C3, as the code has it. A template file whose text is empty after
    trimming is not rejected: with a molecule loaded and an output path
    chosen that is not a directory, the run succeeds and writes a document
    whose template block is empty. *)
Theorem empty_template_is_written (self : OrcaInputDialog) (mw : MainWindow)
    (mol : Chem.Mol) (save_as text : string) (fs : gmap string Node) :
  le_template self <> EmptyString ->
  fs !! le_template self = Some (File text) ->
  Py.strip text = EmptyString ->
  current_mol mw = Some mol ->
  save_as <> EmptyString ->
  fs !! save_as <> Some Dir ->
  generate_file self mw save_as fs
  = (Information ("Input file generated:" +:+ Py.nl +:+ save_as),
     <[save_as := File (preamble (Qt.value (sb_nprocs self)) (Qt.value (sb_maxcore self))
                        +:+ Py.nl +:+ Py.nl
                        +:+ coordinate_block (Qt.value (sb_charge self))
                              (Qt.value (sb_mult self))
                              (coords_data_of (Chem.MolToXYZBlock mol)))]> fs).
Proof.
  intros Hpath Hfile Hempty Hmol Hsave Hdir.
  rewrite (generate_file_writes self mw mol save_as text fs) by assumption.
  unfold render. rewrite Hempty, document_blocks. reflexivity.
Qed.

Lemma empty_template_is_written_witness :
  Py.strip Sample.blank_template = EmptyString
  /\ generate_file Sample.dialog Sample.window "water.inp" Sample.blank_fs
     = (Information ("Input file generated:" +:+ Py.nl +:+ "water.inp"),
        <["water.inp" := File (preamble 4 2000 +:+ Py.nl +:+ Py.nl
                               +:+ coordinate_block 0 1
                                     (coords_data_of (Chem.MolToXYZBlock Sample.mol)))]>
          Sample.blank_fs).
Proof.
  split; [reflexivity|].
  apply (empty_template_is_written Sample.dialog Sample.window Sample.mol
           "water.inp" Sample.blank_template Sample.blank_fs);
    solve [reflexivity | discriminate | vm_compute; discriminate].
Defined.

(** C3 fails as stated: a template file of blanks only exists, is empty
    after trimming, and the run succeeds: the document is written with an
    empty template block, no error is reported. *)
Lemma blank_template_accepted :
  Os.path_exists Sample.blank_fs (le_template Sample.dialog) = true
  /\ Py.strip Sample.blank_template = EmptyString
  /\ generate_file Sample.dialog Sample.window "water.inp" Sample.blank_fs
     = (Information ("Input file generated:" +:+ Py.nl +:+ "water.inp"),
        <["water.inp" := File Sample.blank_document]> Sample.blank_fs).
Proof. repeat split; vm_compute; reflexivity. Qed.

(** C4. When the template field is empty or names a path that does not
    exist, the run ends with the "Template file not found." warning and the
    file system is unchanged: nothing is written at any path. *)
Theorem template_not_found_no_output (self : OrcaInputDialog) (mw : MainWindow)
    (save_as : string) (fs : gmap string Node) :
  le_template self = EmptyString \/ Os.path_exists fs (le_template self) = false ->
  generate_file self mw save_as fs = (template_not_found, fs).
Proof.
  intros [H|H]; unfold generate_file; rewrite H.
  - reflexivity.
  - now rewrite orb_true_r.
Qed.

Lemma template_not_found_no_output_witness :
  Os.path_exists Sample.fs "missing.tmplt" = false
  /\ generate_file (with_template "missing.tmplt" Sample.dialog) Sample.window
       "water.inp" Sample.fs
     = (template_not_found, Sample.fs).
Proof.
  split; [reflexivity|].
  apply (template_not_found_no_output (with_template "missing.tmplt" Sample.dialog)).
  right. reflexivity.
Defined.

(** ** The coordinate block *)

(** C5, as the code has it. For a molecule without atoms (its comment a
    single line) no coordinate line is taken from the XYZ block, and the
    write of the empty coordinate text still ends its line: the coordinate
    block is the header line, one empty line, and the closing marker. *)
Theorem no_atoms_coordinate_block (self : OrcaInputDialog)
    (template_text : string) (mol : Chem.Mol) :
  Chem.GetAtoms mol = [] ->
  no_newline (Chem.mol_name mol) = true ->
  let header := xyz_header (Qt.value (sb_charge self)) (Qt.value (sb_mult self)) in
  coords_data_of (Chem.MolToXYZBlock mol) = EmptyString
  /\ render self template_text mol
     = preamble (Qt.value (sb_nprocs self)) (Qt.value (sb_maxcore self))
       +:+ Py.strip template_text +:+ Py.nl +:+ Py.nl
       +:+ header +:+ Py.nl +:+ Py.nl +:+ "*" +:+ Py.nl
  /\ Py.split_nl (header +:+ Py.nl +:+ Py.nl +:+ "*" +:+ Py.nl)
     = [header; EmptyString; "*"%string; EmptyString].
Proof.
  intros Hno Hname header.
  pose proof (coords_data_no_atoms mol Hno Hname) as Hcoords.
  split; [exact Hcoords|]. split.
  - unfold render. rewrite Hcoords, document_blocks. reflexivity.
  - rewrite !nl_app.
    change ("*" +:+ Py.nl) with ("*" +:+ String Py.newline EmptyString).
    repeat (rewrite split_nl_app || rewrite split_nl_newline).
    subst header. rewrite (split_nl_single _ (xyz_header_no_newline _ _)).
    reflexivity.
Qed.

Lemma no_atoms_coordinate_block_witness :
  Chem.GetAtoms Sample.no_atoms = []
  /\ no_newline (Chem.mol_name Sample.no_atoms) = true
  /\ coords_data_of (Chem.MolToXYZBlock Sample.no_atoms) = EmptyString
  /\ Py.split_nl (xyz_header 0 1 +:+ Py.nl +:+ Py.nl +:+ "*" +:+ Py.nl)
     = [xyz_header 0 1; EmptyString; "*"%string; EmptyString].
Proof.
  split; [reflexivity|]. split; [reflexivity|].
  destruct (no_atoms_coordinate_block Sample.dialog Sample.template_text
              Sample.no_atoms eq_refl eq_refl) as (Hcoords & _ & Hlines).
  split; [exact Hcoords | exact Hlines].
Defined.

(** C5 fails as stated: for the molecule without atoms the line that follows
    the header [* xyz 0 1] is an empty line, and the closing marker comes
    one line later. *)
Lemma blank_line_before_marker :
  let out := Py.split_nl (render Sample.dialog Sample.template_text Sample.no_atoms) in
  Chem.GetNumAtoms Sample.no_atoms = O
  /\ nth_error out 6 = Some "* xyz 0 1"%string
  /\ nth_error out 7 = Some EmptyString
  /\ nth_error out 7 <> Some "*"%string
  /\ nth_error out 8 = Some "*"%string.
Proof. repeat split; try (vm_compute; reflexivity). vm_compute. discriminate. Qed.

(** C9. For a molecule with atoms (its comment a single line, its element
    symbols free of whitespace) the XYZ block is the count line, the comment
    line and one line per atom; the coordinate text is that block without
    its first two lines. Hence the document has, between the header and the
    closing marker, one line per atom, in the molecule's order, and the
    first field of each line is the symbol of its atom. *)
Theorem coordinate_lines_follow_atoms (self : OrcaInputDialog)
    (template_text : string) (mol : Chem.Mol) :
  Chem.GetAtoms mol <> [] ->
  no_newline (Chem.mol_name mol) = true ->
  Forall (fun a => no_space (Chem.GetSymbol a) = true) (Chem.GetAtoms mol) ->
  let block_lines := Py.split_nl (Chem.MolToXYZBlock mol) in
  let body := Py.split_nl (coords_data_of (Chem.MolToXYZBlock mol)) in
  block_lines = firstn 2 block_lines ++ body ++ [EmptyString]
  /\ length (firstn 2 block_lines) = 2%nat
  /\ body = map Chem.atom_line (Chem.GetAtoms mol)
  /\ length body = Chem.GetNumAtoms mol
  /\ map first_field body = map Chem.GetSymbol (Chem.GetAtoms mol)
  /\ Py.split_nl (render self template_text mol)
     = [comment_line; pal_line (Qt.value (sb_nprocs self));
        maxcore_line (Qt.value (sb_maxcore self)); EmptyString]
       ++ Py.split_nl (Py.strip template_text)
       ++ [EmptyString;
           xyz_header (Qt.value (sb_charge self)) (Qt.value (sb_mult self))]
       ++ map Chem.atom_line (Chem.GetAtoms mol)
       ++ ["*"%string; EmptyString].
Proof.
  intros Hne Hname Hsym block_lines body.
  assert (Hnl : Forall (fun a => no_newline (Chem.GetSymbol a) = true) (Chem.GetAtoms mol)).
  { clear -Hsym. induction Hsym as [|a l Ha _ IH]; constructor;
      [now apply no_space_no_newline | exact IH]. }
  assert (Hlines : Forall (fun x => no_newline x = true)
                     (map Chem.atom_line (Chem.GetAtoms mol))).
  { clear -Hnl. induction Hnl as [|a l Ha _ IH]; simpl; constructor;
      [now apply atom_line_no_newline | exact IH]. }
  assert (Hmap : map Chem.atom_line (Chem.GetAtoms mol) <> []).
  { destruct (Chem.GetAtoms mol); [contradiction | discriminate]. }
  assert (Hbody : body = map Chem.atom_line (Chem.GetAtoms mol)).
  { subst body. rewrite (coords_data_atoms mol Hne Hname Hnl).
    now apply split_nl_join. }
  assert (Hblock : block_lines
                   = [Py.str_of_int (Z.of_nat (Chem.GetNumAtoms mol)); Chem.mol_name mol]
                     ++ map Chem.atom_line (Chem.GetAtoms mol) ++ [EmptyString]).
  { subst block_lines. unfold Chem.MolToXYZBlock.
    rewrite (atom_lines_text_join _ Hne), !nl_app.
    change (Py.join_nl (map Chem.atom_line (Chem.GetAtoms mol)) +:+ Py.nl)
      with (Py.join_nl (map Chem.atom_line (Chem.GetAtoms mol))
            +:+ String Py.newline EmptyString).
    rewrite !split_nl_app.
    rewrite (split_nl_single _ (str_of_int_no_newline _)), (split_nl_single _ Hname).
    now rewrite (split_nl_join _ Hmap Hlines). }
  rewrite Hbody. repeat split.
  - rewrite Hblock. reflexivity.
  - rewrite Hblock. reflexivity.
  - unfold Chem.GetNumAtoms. now rewrite length_map.
  - clear -Hsym. induction Hsym as [|a l Ha _ IH]; simpl; [reflexivity|].
    now rewrite (first_field_atom_line a Ha), IH.
  - unfold render. rewrite document_lines. fold body. now rewrite Hbody.
Qed.

Lemma coordinate_lines_follow_atoms_witness :
  Chem.GetAtoms Sample.mol <> []
  /\ no_newline (Chem.mol_name Sample.mol) = true
  /\ Py.split_nl (coords_data_of (Chem.MolToXYZBlock Sample.mol))
     = map Chem.atom_line [Sample.oxygen; Sample.hydrogen]
  /\ map first_field (Py.split_nl (coords_data_of (Chem.MolToXYZBlock Sample.mol)))
     = ["O"%string; "H"%string].
Proof.
  split; [discriminate|]. split; [reflexivity|].
  destruct (coordinate_lines_follow_atoms Sample.dialog Sample.template_text Sample.mol)
    as (_ & _ & Hbody & _ & Hsym & _).
  - discriminate.
  - reflexivity.
  - repeat constructor.
  - split; [exact Hbody | exact Hsym].
Defined.

(** ** The template block *)

Lemma strip_first_char (s : string) :
  Py.strip s = EmptyString
  \/ exists c r, Py.strip s = String c r /\ Py.isspace c = false.
Proof.
unfold Py.strip.
assert (H : Py.lstrip s = EmptyString
            \/ exists c r, Py.lstrip s = String c r /\ Py.isspace c = false).
{ induction s as [|c r IH]; simpl; [now left|].
  destruct (Py.isspace c) eqn:Hc; [exact IH|]. right. now exists c, r. }
destruct H as [-> | (c & r & -> & Hc)]; [now left|].
destruct (rstrip_head c r Hc) as [r' ->]. right. now exists c, r'.
Qed.

Lemma rstrip_last_char (s : string) :
  Py.rstrip s = EmptyString
  \/ exists x c, Py.rstrip s = x +:+ String c EmptyString /\ Py.isspace c = false.
Proof.
induction s as [|a s IH]; [now left|].
cbn [Py.rstrip]. destruct (Py.rstrip s) as [|c' s'] eqn:Hr.
- destruct (Py.isspace a) eqn:Ha; [now left|].
  right. exists EmptyString, a. now split.
- destruct IH as [H | (x & c & Hx & Hc)]; [discriminate|].
  right. exists (String a x), c. split; [|exact Hc]. simpl. now rewrite <- Hx.
Qed.

Lemma length_append_s (a b : string) :
  String.length (a +:+ b) = (String.length a + String.length b)%nat.
Proof. induction a as [|c a IH]; simpl; [reflexivity | now rewrite IH]. Qed.

(** C6. The document is the preamble, then the template text with its
    leading and trailing whitespace removed, then a blank line and the
    coordinate block. The trimmed text stands there once: the document is
    as long as the preamble, the trimmed text, the two line breaks and the
    coordinate block together, and its lines are those of the frame plus
    those of the trimmed text. Nothing inside the text is changed: the
    template is whitespace, then the trimmed text, then whitespace, and the
    trimmed text neither starts nor ends with a whitespace character. *)
Theorem template_block_verbatim (self : OrcaInputDialog)
    (template_text : string) (mol : Chem.Mol) :
  let t := Py.strip template_text in
  let n := Qt.value (sb_nprocs self) in
  let m := Qt.value (sb_maxcore self) in
  let c := Qt.value (sb_charge self) in
  let mu := Qt.value (sb_mult self) in
  let coords := coords_data_of (Chem.MolToXYZBlock mol) in
  render self template_text mol
  = preamble n m +:+ t +:+ Py.nl +:+ Py.nl +:+ coordinate_block c mu coords
  /\ Py.split_nl (render self template_text mol)
     = [comment_line; pal_line n; maxcore_line m; EmptyString]
       ++ Py.split_nl t
       ++ [EmptyString; xyz_header c mu] ++ Py.split_nl coords
       ++ ["*"%string; EmptyString]
  /\ (exists l r, template_text = l +:+ t +:+ r
                  /\ all_space l = true /\ all_space r = true)
  /\ Py.lstrip t = t
  /\ Py.rstrip t = t
  /\ (t = EmptyString
      \/ exists first rest, t = String first rest /\ Py.isspace first = false)
  /\ (t = EmptyString
      \/ exists front last, t = front +:+ String last EmptyString
                            /\ Py.isspace last = false)
  /\ String.length (render self template_text mol)
     = (String.length (preamble n m) + String.length t + 2
        + String.length (coordinate_block c mu coords))%nat
  /\ length (Py.split_nl (render self template_text mol))
     = (8 + length (Py.split_nl t) + length (Py.split_nl coords))%nat.
Proof.
intros t n m c mu coords. unfold render. fold t n m c mu coords.
split; [apply document_blocks|].
split; [apply document_lines|].
split; [apply strip_decompose|].
split; [apply lstrip_strip|]. split; [apply rstrip_strip|].
split; [apply strip_first_char|].
split; [exact (rstrip_last_char (Py.lstrip template_text))|].
split.
- rewrite document_blocks, !length_append_s. cbn [Py.nl String.length]. lia.
- rewrite document_lines, !length_app. cbn [length]. lia.
Qed.

(** ** Defaults loaded into the form *)




Lemma load_override_delete (environ : gmap string string) (name text field : string)
    (sb : Qt.QSpinBox) :
  environ !! name = Some text ->
  Py.int_of_str text = None ->
  load_override environ field sb = load_override (delete name environ) field sb.
Proof.
  intros Hset Hbad. unfold load_override.
  destruct (decide (name = field)) as [<-|Hne].
  - now rewrite Hset, Hbad, lookup_delete_eq.
  - now rewrite lookup_delete_ne.
Qed.

(** C8. An override whose text [int] rejects is ignored: the dialog is
    built exactly as if the variable were not set, so the field keeps its
    built-in default (1 process, 1000 MB). Building the dialog is a total
    function here: the [ValueError] is swallowed, nothing is reported. *)
Theorem malformed_override_ignored (environ : gmap string string) (mw : MainWindow)
    (name text : string) :
  environ !! name = Some text ->
  Py.int_of_str text = None ->
  init environ mw = init (delete name environ) mw
  /\ (name = NPROCS_VAR -> Qt.value (sb_nprocs (init environ mw)) = 1)
  /\ (name = MAXCORE_VAR -> Qt.value (sb_maxcore (init environ mw)) = 1000).
Proof.
  intros Hset Hbad. split; [|split].
  - unfold init, load_defaults.
    now rewrite !(load_override_delete environ name text _ _ Hset Hbad).
  - intros ->. unfold init, load_defaults.
    destruct (current_mol mw); cbn; unfold load_override; now rewrite Hset, Hbad.
  - intros ->. unfold init, load_defaults.
    destruct (current_mol mw); cbn; unfold load_override; now rewrite Hset, Hbad.
Qed.

Lemma malformed_override_ignored_witness :
  Py.int_of_str "four" = None
  /\ init Sample.malformed_environ Sample.window = init ∅ Sample.window
  /\ Qt.value (sb_nprocs (init Sample.malformed_environ Sample.window)) = 1.
Proof.
  split; [reflexivity|].
  destruct (malformed_override_ignored Sample.malformed_environ Sample.window
              NPROCS_VAR "four") as (Hsame & Hn & _); [reflexivity | reflexivity |].
  split; [exact Hsame | now apply Hn].
Defined.

Lemma init_override_values (environ : gmap string string) (mw : MainWindow) :
  Qt.value (sb_nprocs (init environ mw))
  = match override_value environ NPROCS_VAR with
    | Some v => Qt.bound 1 128 v
    | None => 1
    end
  /\ Qt.value (sb_maxcore (init environ mw))
     = match override_value environ MAXCORE_VAR with
       | Some v => Qt.bound 100 100000 v
       | None => 1000
       end.
Proof.
  unfold init, load_defaults, override_value.
  destruct (current_mol mw); cbn; unfold load_override;
    destruct (environ !! NPROCS_VAR) as [tn|]; try destruct (Py.int_of_str tn);
    destruct (environ !! MAXCORE_VAR) as [tm|]; try destruct (Py.int_of_str tm);
    split; reflexivity.
Qed.

(** With every argument of [setValue] a C [int] (the widget alone, without
    the binding): the four fields of the
    new dialog hold the loaded values brought into the declared ranges: an
    override that parses is clamped to 1..128 (processes) or 100..100000
    (memory), the formal charge to -10..10, the radical count plus one to
    1..10; without an override or a molecule the built-in defaults stay. The
    ranges survive every later edit of the form, so [generate_file] reads
    its four parameters inside them. *)
Theorem parameters_within_ranges (environ : gmap string string) (mw : MainWindow)
    (edits : list UserEdit) :
  let self := init environ mw in
  let edited := fold_left apply_edit edits self in
  Qt.value (sb_nprocs self)
  = match override_value environ NPROCS_VAR with
    | Some v => Qt.bound 1 128 v
    | None => 1
    end
  /\ Qt.value (sb_maxcore self)
     = match override_value environ MAXCORE_VAR with
       | Some v => Qt.bound 100 100000 v
       | None => 1000
       end
  /\ Qt.value (sb_charge self)
     = match current_mol mw with
       | Some mol => Qt.bound (-10) 10 (Chem.GetFormalCharge mol)
       | None => 0
       end
  /\ Qt.value (sb_mult self)
     = match current_mol mw with
       | Some mol => Qt.bound 1 10 (num_radical_electrons mol + 1)
       | None => 1
       end
  /\ within_declared_ranges self
  /\ within_declared_ranges edited
  /\ -10 <= Qt.value (sb_charge edited) <= 10
  /\ 1 <= Qt.value (sb_mult edited) <= 10
  /\ 1 <= Qt.value (sb_nprocs edited) <= 128
  /\ 100 <= Qt.value (sb_maxcore edited) <= 100000.
Proof.
  intros self edited.
  assert (Hself : within_declared_ranges self)
    by apply load_defaults_ranges, setup_ui_ranges.
  assert (Hedited : within_declared_ranges edited)
    by now apply edits_ranges.
  destruct (init_override_values environ mw) as [Hn Hm].
  split; [exact Hn|]. split; [exact Hm|].
  split; [subst self; unfold init, load_defaults; now destruct (current_mol mw)|].
  split; [subst self; unfold init, load_defaults; now destruct (current_mol mw)|].
  split; [exact Hself|]. split; [exact Hedited|].
  destruct Hedited as ((_ & _ & Hc) & (_ & _ & Hmu) & (_ & _ & Hnp) & (_ & _ & Hmc)).
  auto.
Qed.

(** ** Reading back printed integers *)

Section DecimalFacts.

Lemma rstrip_no_space (s : string) : no_space s = true -> Py.rstrip s = s.
Proof.
induction s as [|c s IH]; [reflexivity|].
intros H. unfold no_space in H. simpl in H.
apply andb_true_iff in H as [Hc Hs]. apply negb_true_iff in Hc.
simpl. rewrite (IH Hs). destruct s; [now rewrite Hc | reflexivity].
Qed.

Lemma strip_no_space (s : string) : no_space s = true -> Py.strip s = s.
Proof.
intros H. unfold Py.strip.
assert (Hl : Py.lstrip s = s).
{ destruct s as [|c s]; [reflexivity|].
  unfold no_space in H. simpl in H. apply andb_true_iff in H as [Hc _].
  apply negb_true_iff in Hc. now apply lstrip_nonspace. }
rewrite Hl. now apply rstrip_no_space.
Qed.

(** Once a digit other than a leading zero was read, the accumulator of
    [digits_value] runs like [Pos.of_uint_acc]. *)
Lemma digits_value_acc (d : Decimal.uint) (acc : positive) :
  Py.digits_value (Zpos acc) true (NilEmpty.string_of_uint d)
  = Some (Zpos (Pos.of_uint_acc d acc)).
Proof.
revert acc. induction d; intros acc; cbn [NilEmpty.string_of_uint Pos.of_uint_acc];
  [reflexivity | ..];
  cbn [Py.digits_value]; cbv [Py.is_digit Py.digit_value];
  cbn [N_of_ascii N.leb N.compare Pos.compare Pos.compare_cont andb N_of_digits
       N.add N.mul Pos.add Pos.mul Pos.succ];
  (etransitivity; [|apply IHd]); f_equal; lia.
Qed.

Lemma digits_value_uint (d : Decimal.uint) (prev : bool) :
  prev = true \/ d <> Decimal.Nil ->
  Py.digits_value 0 prev (NilEmpty.string_of_uint d) = Some (Z.of_N (Pos.of_uint d)).
Proof.
revert prev. induction d; intros prev Hprev; cbn [NilEmpty.string_of_uint Pos.of_uint].
- destruct Hprev as [-> | H]; [reflexivity | contradiction].
- change (Py.digits_value 0 prev (String "0" (NilEmpty.string_of_uint d)))
    with (Py.digits_value 0 true (NilEmpty.string_of_uint d)).
  apply IHd. now left.
- exact (digits_value_acc d 1).
- exact (digits_value_acc d 2).
- exact (digits_value_acc d 3).
- exact (digits_value_acc d 4).
- exact (digits_value_acc d 5).
- exact (digits_value_acc d 6).
- exact (digits_value_acc d 7).
- exact (digits_value_acc d 8).
- exact (digits_value_acc d 9).
Qed.

Lemma pos_to_uint_not_nil (p : positive) : Pos.to_uint p <> Decimal.Nil.
Proof.
intros H. pose proof (DecimalPos.Unsigned.of_to p) as Hp.
rewrite H in Hp. discriminate.
Qed.

Lemma digits_value_pos (p : positive) :
  Py.digits_value 0 false (NilEmpty.string_of_uint (Pos.to_uint p)) = Some (Zpos p).
Proof.
rewrite digits_value_uint by (right; apply pos_to_uint_not_nil).
now rewrite DecimalPos.Unsigned.of_to.
Qed.

Lemma int_isspace_isspace (c : ascii) :
  Py.int_isspace c = true -> Py.isspace c = true.
Proof.
destruct c as [b0 b1 b2 b3 b4 b5 b6 b7].
destruct b0, b1, b2, b3, b4, b5, b6, b7; cbv; intros H; congruence.
Qed.

Lemma int_strip_no_space (s : string) :
  no_space s = true -> Py.int_rstrip (Py.int_lstrip s) = s.
Proof.
intros H.
assert (Hc : forall c, negb (Py.isspace c) = true -> Py.int_isspace c = false).
{ intros c Hn. apply negb_true_iff in Hn.
  destruct (Py.int_isspace c) eqn:Hi; [|reflexivity].
  apply int_isspace_isspace in Hi. congruence. }
assert (Hl : Py.int_lstrip s = s).
{ destruct s as [|c s]; [reflexivity|].
  unfold no_space in H. simpl in H. apply andb_true_iff in H as [H1 _].
  simpl. now rewrite (Hc c H1). }
rewrite Hl. clear Hl. induction s as [|c s IH]; [reflexivity|].
unfold no_space in H. simpl in H. apply andb_true_iff in H as [H1 H2].
simpl. rewrite (IH H2). destruct s; [now rewrite (Hc c H1) | reflexivity].
Qed.

(** [int(str(n)) == n], as long as the text stays within the digit limit. *)
Lemma int_of_str_of_int (n : Z) :
  (Py.digit_count (Py.str_of_int n) <= Py.int_max_str_digits)%N ->
  Py.int_of_str (Py.str_of_int n) = Some n.
Proof.
intros Hlen. unfold Py.int_of_str.
rewrite (int_strip_no_space _ (str_of_int_no_space n)). cbv zeta.
destruct (N.ltb_spec Py.int_max_str_digits (Py.digit_count (Py.str_of_int n)))
  as [Hgt|_]; [lia|]. clear Hlen.
unfold Py.str_of_int. destruct n as [|p|p]; cbn [Z.to_int NilZero.string_of_int].
- reflexivity.
- pose proof (digits_value_pos p) as H. pose proof (pos_to_uint_not_nil p) as Hn.
  destruct (Pos.to_uint p); [contradiction | ..]; exact H.
- pose proof (digits_value_pos p) as H. pose proof (pos_to_uint_not_nil p) as Hn.
  destruct (Pos.to_uint p); [contradiction | ..];
    cbn [NilZero.string_of_uint]; cbv iota; rewrite H; reflexivity.
Qed.

Lemma within_digit_limit_upto_spec (fuel : nat) (z k : Z) :
  within_digit_limit_upto fuel z = true ->
  z <= k < z + Z.of_nat fuel ->
  (Py.digit_count (Py.str_of_int k) <= Py.int_max_str_digits)%N.
Proof.
revert z. induction fuel as [|fuel IH]; intros z Hall Hk; [lia|].
cbn [within_digit_limit_upto] in Hall. apply andb_true_iff in Hall as [Hz Hrest].
destruct (Z.eq_dec k z) as [->|Hne].
- now apply N.leb_le.
- apply (IH (z + 1) Hrest). lia.
Qed.

(** The numbers a spin box of this dialog can hold print well within the
    digit limit. *)
Lemma small_int_digits (n : Z) :
  0 <= n <= 100000 ->
  (Py.digit_count (Py.str_of_int n) <= Py.int_max_str_digits)%N.
Proof.
intros Hn.
assert (Hall : within_digit_limit_upto (Z.to_nat 100001) 0 = true)
  by (vm_compute; reflexivity).
apply (within_digit_limit_upto_spec _ 0 n Hall). lia.
Qed.

End DecimalFacts.

(** ** The dialog as the binding builds it *)

Section BindingFacts.

Lemma load_override_py_spec (environ : gmap string string) (name : string)
    (sb : Qt.QSpinBox) :
  match load_override_py environ name sb with
  | Some sb' => sb' = load_override environ name sb
  | None => overflowing environ name
  end.
Proof.
unfold load_override_py, load_override, overflowing, override_value, setValue_py.
destruct (environ !! name) as [text|]; [|reflexivity].
destruct (Py.int_of_str text) as [val|]; [|reflexivity].
destruct (fits_c_int val) eqn:Hfit; [reflexivity | now exists val].
Qed.

Lemma estimate_py_ranges (mol : Chem.Mol) (self : OrcaInputDialog) :
  within_declared_ranges self -> within_declared_ranges (estimate_py mol self).
Proof.
intros (Hc & Hm & Hn & Hx). unfold estimate_py, setValue_py. cbv zeta.
destruct (fits_c_int (Chem.GetFormalCharge mol));
  [|exact (conj Hc (conj Hm (conj Hn Hx)))].
cbn -[in_range]. destruct (fits_c_int (num_radical_electrons mol + 1));
  (split; [|split; [|split]]); cbn -[in_range];
  first [ assumption | apply setValue_in_range; [lia | assumption] ].
Qed.


(** The dialog is built unless an override overflows; when built, its
    fields are inside their declared ranges. *)
Lemma init_py_built (environ : gmap string string) (mw : MainWindow) :
  match init_py environ mw with
  | Some self => within_declared_ranges self
  | None => overflowing environ NPROCS_VAR \/ overflowing environ MAXCORE_VAR
  end.
Proof.
unfold init_py, load_defaults_py.
pose proof (load_override_py_spec environ NPROCS_VAR (sb_nprocs setup_ui)) as Hn.
destruct (load_override_py environ NPROCS_VAR (sb_nprocs setup_ui)) as [n|];
  [|now left].
pose proof (load_override_py_spec environ MAXCORE_VAR
              (sb_maxcore (with_nprocs n setup_ui))) as Hm.
destruct (load_override_py environ MAXCORE_VAR (sb_maxcore (with_nprocs n setup_ui)))
  as [m|]; [|now right].
assert (Hr : within_declared_ranges (with_maxcore m (with_nprocs n setup_ui))).
{ destruct setup_ui_ranges as (Hc & Hmu & Hnp & Hmc). subst n m.
  (split; [|split; [|split]]); cbn -[in_range];
    first [ assumption | apply load_override_in_range; [lia | assumption] ]. }
destruct (current_mol mw) as [mol|]; [now apply estimate_py_ranges | exact Hr].
Qed.




End BindingFacts.




(** ** More about runs of [generate_file] *)

(** X1. An override that is the decimal text of a number inside the field's
    range is loaded exactly: [int] reads back what [str] prints. *)
Theorem decimal_override_is_loaded (environ : gmap string string) (mw : MainWindow)
    (n m : Z) :
  environ !! NPROCS_VAR = Some (Py.str_of_int n) ->
  environ !! MAXCORE_VAR = Some (Py.str_of_int m) ->
  1 <= n <= 128 ->
  100 <= m <= 100000 ->
  Qt.value (sb_nprocs (init environ mw)) = n
  /\ Qt.value (sb_maxcore (init environ mw)) = m.
Proof.
intros Hn Hm Hnr Hmr.
destruct (init_override_values environ mw) as [-> ->].
unfold override_value.
rewrite Hn, Hm, !int_of_str_of_int by (apply small_int_digits; lia).
split; apply bound_inside; assumption.
Qed.

Lemma decimal_override_is_loaded_witness :
  Qt.value (sb_nprocs (init {[ NPROCS_VAR := "16"%string; MAXCORE_VAR := "4000"%string ]}
                            Sample.window)) = 16
  /\ Qt.value (sb_maxcore (init {[ NPROCS_VAR := "16"%string; MAXCORE_VAR := "4000"%string ]}
                                Sample.window)) = 4000.
Proof.
apply (decimal_override_is_loaded _ Sample.window 16 4000);
  solve [reflexivity | lia].
Defined.

(** X3. A run never touches a path other than the one chosen in the save
    dialog: every other file and directory is as before, whatever the
    outcome. *)
Theorem generate_file_touches_only_output (self : OrcaInputDialog) (mw : MainWindow)
    (save_as other : string) (fs : gmap string Node) :
  other <> save_as ->
  snd (generate_file self mw save_as fs) !! other = fs !! other.
Proof.
intros Hne. unfold generate_file.
destruct (String.eqb (le_template self) EmptyString
          || negb (Os.path_exists fs (le_template self))); [reflexivity|].
destruct (current_mol mw) as [mol|]; [|reflexivity].
destruct (String.eqb save_as EmptyString); [reflexivity|].
unfold try_generate, Os.read_text, Os.write_text.
destruct (fs !! le_template self) as [[text|]|]; cbn; try reflexivity.
destruct (fs !! save_as) as [[text'|]|]; cbn; try reflexivity;
  now rewrite lookup_insert_ne.
Qed.

Lemma generate_file_touches_only_output_witness :
  snd (generate_file Sample.dialog Sample.window "water.inp" Sample.fs)
    !! Sample.template_path
  = Some (File Sample.template_text).
Proof.
rewrite (generate_file_touches_only_output Sample.dialog Sample.window
           "water.inp" Sample.template_path Sample.fs); [reflexivity | discriminate].
Defined.

(** X4. When the path chosen in the save dialog is a directory, the run
    ends with the error box for that path and nothing is written, although
    the template was read. *)
Theorem output_directory_fails (self : OrcaInputDialog) (mw : MainWindow)
    (mol : Chem.Mol) (save_as text : string) (fs : gmap string Node) :
  le_template self <> EmptyString ->
  fs !! le_template self = Some (File text) ->
  current_mol mw = Some mol ->
  save_as <> EmptyString ->
  fs !! save_as = Some Dir ->
  generate_file self mw save_as fs = (Critical (IsADirectoryError save_as), fs).
Proof.
intros Hpath Hfile Hmol Hsave Hdir. unfold generate_file.
apply String.eqb_neq in Hpath. apply String.eqb_neq in Hsave.
unfold Os.path_exists. rewrite Hpath, Hfile, Hmol, Hsave. cbn.
unfold try_generate, Os.read_text, Os.write_text. now rewrite Hfile, Hdir.
Qed.

Lemma output_directory_fails_witness :
  generate_file Sample.dialog Sample.window "results" Sample2.fs_with_dir
  = (Critical (IsADirectoryError "results"), Sample2.fs_with_dir).
Proof.
apply (output_directory_fails Sample.dialog Sample.window Sample.mol "results"
         Sample.template_text Sample2.fs_with_dir);
  solve [reflexivity | discriminate].
Defined.

(** X5. A second run with the same form and the same answer to the save
    dialog succeeds again. When the output path is not the template's, it
    writes the same document and the file system stays as the first run
    left it; when the output path is the template itself, the first run has
    replaced the template by the document, and the second run renders from
    that document. *)
Theorem second_run (self : OrcaInputDialog) (mw : MainWindow)
    (mol : Chem.Mol) (save_as text : string) (fs : gmap string Node) :
  le_template self <> EmptyString ->
  fs !! le_template self = Some (File text) ->
  current_mol mw = Some mol ->
  save_as <> EmptyString ->
  fs !! save_as <> Some Dir ->
  let first := generate_file self mw save_as fs in
  let again := generate_file self mw save_as (snd first) in
  fst again = fst first
  /\ (save_as <> le_template self -> snd again = snd first)
  /\ (save_as = le_template self ->
      snd again = <[save_as := File (render self (render self text mol) mol)]> fs).
Proof.
intros Hpath Hfile Hmol Hsave Hdir first again. subst again first.
rewrite (generate_file_writes self mw mol save_as text fs) by assumption.
cbn [fst snd].
destruct (decide (save_as = le_template self)) as [Heq|Hne].
- rewrite (generate_file_writes self mw mol save_as (render self text mol));
    try assumption.
  + split; [reflexivity|]. split; [contradiction|]. intros _.
    cbn [snd]. now rewrite insert_insert_eq.
  + rewrite <- Heq. now rewrite lookup_insert_eq.
  + rewrite lookup_insert_eq. discriminate.
- rewrite (generate_file_writes self mw mol save_as text); try assumption.
  + split; [reflexivity|]. split; [|contradiction]. intros _.
    cbn [snd]. now rewrite insert_insert_eq.
  + rewrite lookup_insert_ne by assumption. exact Hfile.
  + rewrite lookup_insert_eq. discriminate.
Qed.

Lemma second_run_witness :
  snd (generate_file Sample.dialog Sample.window "water.inp"
         (snd (generate_file Sample.dialog Sample.window "water.inp" Sample.fs)))
  = snd (generate_file Sample.dialog Sample.window "water.inp" Sample.fs).
Proof.
apply (second_run Sample.dialog Sample.window Sample.mol "water.inp"
         Sample.template_text Sample.fs);
  solve [reflexivity | discriminate | vm_compute; discriminate].
Defined.


(** ** More about the texts *)

Section TextFacts.

Lemma join_nl_cons (x y : string) (l : list string) :
  Py.join_nl (x :: y :: l) = x +:+ String Py.newline (Py.join_nl (y :: l)).
Proof. reflexivity. Qed.

Lemma join_nl_head_char (c : ascii) (h : string) (t : list string) :
  Py.join_nl (String c h :: t) = String c (Py.join_nl (h :: t)).
Proof. destruct t; reflexivity. Qed.

(** ["\n".join(s.split("\n")) == s] *)
Lemma join_split_nl (s : string) : Py.join_nl (Py.split_nl s) = s.
Proof.
induction s as [|c s IH]; [reflexivity|].
pose proof (split_nl_nonempty s) as Hne.
cbn [Py.split_nl]. destruct (Ascii.eqb_spec c Py.newline) as [->|Hc].
- destruct (Py.split_nl s) as [|h t] eqn:Hs; [contradiction|].
  rewrite join_nl_cons, IH. reflexivity.
- destruct (Py.split_nl s) as [|h t] eqn:Hs; [contradiction|].
  now rewrite join_nl_head_char, IH.
Qed.

Lemma split_nl_no_newline (s : string) :
  Forall (fun x => no_newline x = true) (Py.split_nl s).
Proof.
induction s as [|c s IH]; [repeat constructor|].
pose proof (split_nl_nonempty s) as Hne.
cbn [Py.split_nl]. destruct (Ascii.eqb c Py.newline) eqn:Hc.
- constructor; [reflexivity | exact IH].
- destruct (Py.split_nl s) as [|h t]; [contradiction|].
  inversion IH as [|? ? Hh Ht]; subst. constructor; [|exact Ht].
  unfold no_newline. simpl. now rewrite Hc.
Qed.

Lemma join_nl_app (l1 l2 : list string) :
  l1 <> [] -> l2 <> [] ->
  Py.join_nl (l1 ++ l2) = Py.join_nl l1 +:+ String Py.newline (Py.join_nl l2).
Proof.
intros H1 H2. induction l1 as [|x l1 IH]; [contradiction|].
destruct l1 as [|y l1].
- destruct l2 as [|z l2]; [contradiction | reflexivity].
- change ((x :: y :: l1) ++ l2) with (x :: y :: (l1 ++ l2)).
  rewrite !join_nl_cons. change (y :: l1 ++ l2) with ((y :: l1) ++ l2).
  rewrite IH by discriminate. now rewrite append_assoc_s.
Qed.

Lemma rstrip_suffix (a b : string) :
  Py.rstrip (a +:+ b) = a +:+ b -> Py.rstrip b = b.
Proof.
induction a as [|c a IH]; [auto|].
cbn [append Py.rstrip]. destruct (Py.rstrip (a +:+ b)) as [|c' r] eqn:Hr.
- destruct (Py.isspace c); [discriminate|].
  intros H. injection H as H. destruct a; [|discriminate].
  simpl in H. subst b. reflexivity.
- intros H. injection H as H. apply IH. exact H.
Qed.

Lemma lstrip_all_space (s : string) : all_space s = true -> Py.lstrip s = EmptyString.
Proof.
induction s as [|c s IH]; [reflexivity|].
unfold all_space. simpl. intros H. apply andb_true_iff in H as [Hc Hs].
rewrite Hc. now apply IH.
Qed.

Lemma lstrip_margin (l s : string) :
  all_space l = true -> Py.lstrip (l +:+ s) = Py.lstrip s.
Proof.
induction l as [|c l IH]; [reflexivity|].
unfold all_space. simpl. intros H. apply andb_true_iff in H as [Hc Hl].
rewrite Hc. now apply IH.
Qed.

Lemma rstrip_margin (s r : string) :
  all_space r = true -> Py.rstrip (s +:+ r) = Py.rstrip s.
Proof.
revert s. induction r as [|c r IH]; intros s H.
- now rewrite append_nil_r_s.
- unfold all_space in H. simpl in H. apply andb_true_iff in H as [Hc Hr].
  replace (s +:+ String c r) with ((s +:+ String c EmptyString) +:+ r)
    by (rewrite append_assoc_s; reflexivity).
  rewrite (IH _ Hr). now apply rstrip_snoc_space.
Qed.

Lemma strip_margin_r (s r : string) :
  all_space r = true -> Py.strip (s +:+ r) = Py.strip s.
Proof.
intros Hr. unfold Py.strip. induction s as [|c s IH].
- simpl. now rewrite (lstrip_all_space _ Hr).
- cbn [append Py.lstrip]. destruct (Py.isspace c); [exact IH|].
  change (String c (s +:+ r)) with (String c s +:+ r). now apply rstrip_margin.
Qed.

End TextFacts.

(** X6. The coordinate text, for any XYZ block: when the stripped block has
    more than two lines, it is that block without its first two lines and
    their line breaks, line for line; otherwise it is empty. It never ends
    in whitespace, so the line break written after it is the only thing
    between the last coordinate line and the closing marker. *)
Theorem coords_data_is_block_tail (xyz_block : string) :
  let stripped := Py.strip xyz_block in
  let xyz_lines := Py.split_nl stripped in
  let coords_data := coords_data_of xyz_block in
  ((length xyz_lines <= 2)%nat -> coords_data = EmptyString)
  /\ ((2 < length xyz_lines)%nat ->
      stripped = Py.join_nl (firstn 2 xyz_lines)
                 +:+ String Py.newline coords_data
      /\ Py.split_nl coords_data = skipn 2 xyz_lines)
  /\ Py.rstrip coords_data = coords_data.
Proof.
intros stripped xyz_lines coords_data.
assert (Hsmall : (length xyz_lines <= 2)%nat -> coords_data = EmptyString).
{ intros Hle. subst coords_data. unfold coords_data_of. fold stripped xyz_lines.
  destruct (Nat.ltb_spec 2 (length xyz_lines)); [lia | reflexivity]. }
assert (Hbig : (2 < length xyz_lines)%nat ->
               stripped = Py.join_nl (firstn 2 xyz_lines)
                          +:+ String Py.newline coords_data
               /\ Py.split_nl coords_data = skipn 2 xyz_lines).
{ intros Hlt. subst coords_data. unfold coords_data_of. fold stripped xyz_lines.
  destruct (Nat.ltb_spec 2 (length xyz_lines)) as [_|]; [|lia].
  unfold Py.slice_from.
  pose proof (split_nl_no_newline stripped) as Hall. fold xyz_lines in Hall.
  pose proof (join_split_nl stripped) as Hjoin. fold xyz_lines in Hjoin.
  destruct xyz_lines as [|l0 [|l1 [|l2 rest]]]; simpl in Hlt; try lia.
  split.
  - rewrite <- Hjoin at 1.
    change (l0 :: l1 :: l2 :: rest) with ([l0; l1] ++ (l2 :: rest)).
    now rewrite join_nl_app by discriminate.
  - cbn [skipn]. apply split_nl_join; [discriminate|].
    inversion Hall as [|? ? _ H1]; subst. inversion H1; subst. assumption. }
split; [exact Hsmall|]. split; [exact Hbig|].
destruct (le_lt_dec (length xyz_lines) 2) as [Hle|Hlt].
- now rewrite (Hsmall Hle).
- destruct (Hbig Hlt) as [Hs _].
  apply (rstrip_suffix (Py.join_nl (firstn 2 xyz_lines) +:+ Py.nl)).
  rewrite append_assoc_s. change (Py.nl +:+ coords_data) with (String Py.newline coords_data).
  rewrite <- Hs. apply rstrip_strip.
Qed.

(** X7. Whitespace around the template text does not matter: two template
    files that differ only in leading and trailing whitespace (blank lines
    included) give the same document. *)
Theorem template_margins_are_irrelevant (self : OrcaInputDialog) (mol : Chem.Mol)
    (l t r : string) :
  all_space l = true ->
  all_space r = true ->
  render self (l +:+ t +:+ r) mol = render self t mol.
Proof.
intros Hl Hr. unfold render.
assert (Hstrip : Py.strip (l +:+ t +:+ r) = Py.strip t).
{ unfold Py.strip at 1. rewrite (lstrip_margin _ _ Hl).
  fold (Py.strip (t +:+ r)). now apply strip_margin_r. }
now rewrite Hstrip.
Qed.

Lemma template_margins_are_irrelevant_witness :
  render Sample.dialog (Sample.blank_template +:+ Sample.template_text +:+ Py.nl)
         Sample.mol
  = render Sample.dialog Sample.template_text Sample.mol.
Proof.
apply (template_margins_are_irrelevant Sample.dialog Sample.mol
         Sample.blank_template Sample.template_text Py.nl); reflexivity.
Defined.

(** ** The default file name *)

Section PathFacts.

Lemma rfind_lower (c : ascii) (s : string) : -1 <= OsPath.rfind c s.
Proof.
induction s as [|x s IH]; simpl; [lia|].
destruct (Z.leb_spec 0 (OsPath.rfind c s)); [lia|].
destruct (Ascii.eqb x c); lia.
Qed.

Lemma rfind_absent (c : ascii) (s : string) :
  str_contains c s = false -> OsPath.rfind c s = -1.
Proof.
induction s as [|x s IH]; simpl; [reflexivity|].
intros H. apply orb_false_iff in H as [Hx Hs].
rewrite (IH Hs), Hx. reflexivity.
Qed.

Lemma rfind_last (c : ascii) (a b : string) :
  str_contains c b = false ->
  OsPath.rfind c (a +:+ String c b) = Z.of_nat (String.length a).
Proof.
intros Hb. induction a as [|x a IH].
- simpl. rewrite (rfind_absent _ _ Hb), Ascii.eqb_refl. reflexivity.
- cbn [append OsPath.rfind String.length]. rewrite IH.
  destruct (Z.leb_spec 0 (Z.of_nat (String.length a))); lia.
Qed.

(** What follows the last occurrence holds no further one. *)
Lemma rfind_tail (c : ascii) (s : string) :
  str_contains c (OsPath.str_drop (Z.to_nat (OsPath.rfind c s + 1)) s) = false.
Proof.
induction s as [|x s IH]; [reflexivity|].
pose proof (rfind_lower c s) as Hlow.
cbn [OsPath.rfind]. destruct (Z.leb_spec 0 (OsPath.rfind c s)) as [Hi|Hi].
- replace (Z.to_nat (OsPath.rfind c s + 1 + 1))
    with (S (Z.to_nat (OsPath.rfind c s + 1))) by lia.
  exact IH.
- assert (Hm : OsPath.rfind c s = -1) by lia.
  rewrite Hm in IH. cbn in IH.
  assert (Hs : str_contains c s = false) by (destruct s; exact IH).
  destruct (Ascii.eqb x c) eqn:Hx; cbn.
  + destruct s; exact IH.
  + change (str_contains c (String x s) = false).
    cbn [str_contains]. now rewrite Hx, Hs.
Qed.

Lemma str_take_drop (n : nat) (s : string) :
  OsPath.str_take n s +:+ OsPath.str_drop n s = s.
Proof.
revert s. induction n as [|n IH]; intros s; [reflexivity|].
destruct s as [|c s]; [reflexivity|]. simpl. now rewrite IH.
Qed.

Lemma str_take_app (a b : string) : OsPath.str_take (String.length a) (a +:+ b) = a.
Proof. induction a as [|c a IH]; simpl; [now destruct b | now rewrite IH]. Qed.

Lemma str_drop_app (a b : string) : OsPath.str_drop (String.length a) (a +:+ b) = b.
Proof. induction a as [|c a IH]; simpl; [now destruct b | exact IH]. Qed.

Lemma str_contains_app (c : ascii) (a b : string) :
  str_contains c (a +:+ b) = str_contains c a || str_contains c b.
Proof.
induction a as [|x a IH]; simpl; [reflexivity|].
now rewrite IH, orb_assoc.
Qed.

Lemma str_contains_take (c : ascii) (n : nat) (s : string) :
  str_contains c s = false -> str_contains c (OsPath.str_take n s) = false.
Proof.
intros H. rewrite <- (str_take_drop n s), str_contains_app in H.
now apply orb_false_iff in H as [H _].
Qed.

Lemma basename_no_slash (p : string) : str_contains "/" (OsPath.basename p) = false.
Proof. apply rfind_tail. Qed.

Lemma basename_join (dir name : string) :
  str_contains "/" name = false ->
  OsPath.basename (dir +:+ String "/" name) = name.
Proof.
intros H. unfold OsPath.basename. rewrite (rfind_last _ _ _ H).
replace (Z.to_nat (Z.of_nat (String.length dir) + 1))
  with (String.length (dir +:+ String "/" EmptyString)).
- replace (dir +:+ String "/" name) with ((dir +:+ String "/" EmptyString) +:+ name)
    by (rewrite append_assoc_s; reflexivity).
  apply str_drop_app.
- induction dir as [|c dir IH]; [reflexivity|].
  cbn [append String.length]. rewrite IH. lia.
Qed.

Lemma splitext_stem (stem ext : string) :
  str_contains "/" stem = false ->
  str_contains "/" ext = false ->
  str_contains "." ext = false ->
  OsPath.found_non_dot stem = true ->
  OsPath.splitext (stem +:+ String "." ext) = (stem, String "."%char ext).
Proof.
intros Hs He Hd Hstem. unfold OsPath.splitext.
rewrite (rfind_last "." stem ext Hd).
rewrite (rfind_absent "/" (stem +:+ String "." ext))
  by (rewrite str_contains_app; simpl; now rewrite Hs, He).
destruct (Z.ltb_spec (-1) (Z.of_nat (String.length stem))) as [_|]; [|lia].
rewrite Nat2Z.id. change (Z.to_nat (-1 + 1)) with O.
rewrite str_take_app, str_drop_app. cbn [OsPath.str_drop].
now rewrite Hstem.
Qed.

Lemma rfind_hit (c : ascii) (s : string) :
  0 <= OsPath.rfind c s ->
  OsPath.str_drop (Z.to_nat (OsPath.rfind c s)) s
  = String c (OsPath.str_drop (Z.to_nat (OsPath.rfind c s + 1)) s).
Proof.
induction s as [|x s IH]; [simpl; lia|].
cbn [OsPath.rfind]. destruct (Z.leb_spec 0 (OsPath.rfind c s)) as [Hi|Hi].
- intros _.
  replace (Z.to_nat (OsPath.rfind c s + 1 + 1))
    with (S (Z.to_nat (OsPath.rfind c s + 1))) by lia.
  replace (Z.to_nat (OsPath.rfind c s + 1))
    with (S (Z.to_nat (OsPath.rfind c s))) at 1 by lia.
  cbn [OsPath.str_drop]. exact (IH Hi).
- destruct (Ascii.eqb_spec x c) as [->|Hx]; [|lia].
  intros _. cbn. now destruct s.
Qed.

(** The root that [splitext] returns is a prefix of the name, and the rest
    is empty or starts at the name's last dot. *)
Lemma splitext_parts (p : string) :
  fst (OsPath.splitext p) +:+ snd (OsPath.splitext p) = p
  /\ (snd (OsPath.splitext p) = EmptyString
      \/ exists e, snd (OsPath.splitext p) = String "."%char e
                   /\ str_contains "." e = false).
Proof.
unfold OsPath.splitext.
destruct (OsPath.rfind "/" p <? OsPath.rfind "." p) eqn:Hlt;
  [|split; [apply append_nil_r_s | now left]].
destruct (OsPath.found_non_dot _);
  [|split; [apply append_nil_r_s | now left]].
cbn [fst snd]. split; [apply str_take_drop|]. right.
apply Z.ltb_lt in Hlt. pose proof (rfind_lower "/" p) as Hlow.
exists (OsPath.str_drop (Z.to_nat (OsPath.rfind "." p + 1)) p).
split; [apply rfind_hit; lia | apply rfind_tail].
Qed.

Lemma splitext_root_no_slash (p : string) :
  str_contains "/" p = false -> str_contains "/" (fst (OsPath.splitext p)) = false.
Proof.
intros H. unfold OsPath.splitext.
destruct (OsPath.rfind "/" p <? OsPath.rfind "." p); [|exact H].
destruct (OsPath.found_non_dot _); [|exact H].
now apply str_contains_take.
Qed.

End PathFacts.

(** X8. For a structure file [dir/stem.ext] (no slash in [stem] and [ext],
    no dot in [ext], and [stem] not made of dots only) the name offered by
    the save dialog is [stem], the stripped suffix field and [.inp]: the
    directory and the last extension are dropped, earlier dots are kept. *)
Theorem default_name_of_structure_file (self : OrcaInputDialog)
    (mol : option Chem.Mol) (dir stem ext : string) :
  str_contains "/" stem = false ->
  str_contains "/" ext = false ->
  str_contains "." ext = false ->
  OsPath.found_non_dot stem = true ->
  default_name self (mkMainWindow mol (Some (dir +:+ "/" +:+ stem +:+ "." +:+ ext)))
  = stem +:+ Py.strip (le_suffix self) +:+ ".inp".
Proof.
intros Hs He Hd Hstem. unfold default_name. cbn [current_file_path].
change (dir +:+ "/" +:+ stem +:+ "." +:+ ext)
  with (dir +:+ String "/" (stem +:+ String "." ext)).
assert (Hname : str_contains "/" (stem +:+ String "." ext) = false)
  by (rewrite str_contains_app; simpl; now rewrite Hs, He).
pose proof (basename_join dir _ Hname) as Hbase.
destruct (dir +:+ String "/" (stem +:+ String "." ext)) as [|c r] eqn:Hpath.
- destruct dir; discriminate.
- rewrite Hbase, (splitext_stem stem ext Hs He Hd Hstem). reflexivity.
Qed.

Lemma default_name_of_structure_file_witness :
  default_name Sample2.suffixed Sample2.window_with_file = "water.v2_opt.inp"%string.
Proof.
apply (default_name_of_structure_file Sample2.suffixed (Some Sample.mol)
         "/data" "water.v2" "xyz"); reflexivity.
Defined.

(** X9. The name offered by the save dialog is a bare file name: when the
    stripped suffix field holds no slash, neither does the default name,
    whatever directory the current file lies in. *)
Theorem default_name_is_bare (self : OrcaInputDialog) (mw : MainWindow) :
  str_contains "/" (Py.strip (le_suffix self)) = false ->
  str_contains "/" (default_name self mw) = false.
Proof.
intros Hsuffix. unfold default_name.
destruct (current_file_path mw) as [[|c r]|];
  rewrite !str_contains_app, Hsuffix; try reflexivity.
rewrite (splitext_root_no_slash _ (basename_no_slash (String c r))). reflexivity.
Qed.

Lemma default_name_is_bare_witness :
  str_contains "/" (default_name Sample2.suffixed Sample2.window_with_file) = false.
Proof. apply (default_name_is_bare Sample2.suffixed Sample2.window_with_file). reflexivity. Defined.

(** X10. With a current file, the default name keeps a prefix of the file's
    base name and drops the rest, which is empty or starts at the base
    name's last dot; the stripped suffix and [.inp] come in its place. *)
Theorem default_name_replaces_extension (self : OrcaInputDialog) (mw : MainWindow)
    (path : string) :
  current_file_path mw = Some path ->
  path <> EmptyString ->
  exists root ext,
    OsPath.basename path = root +:+ ext
    /\ default_name self mw = root +:+ Py.strip (le_suffix self) +:+ ".inp"
    /\ (ext = EmptyString
        \/ exists e, ext = String "."%char e /\ str_contains "." e = false).
Proof.
intros Hpath Hne. unfold default_name. rewrite Hpath.
destruct path as [|c r]; [contradiction|].
destruct (splitext_parts (OsPath.basename (String c r))) as [Hsum Hext].
exists (fst (OsPath.splitext (OsPath.basename (String c r)))),
       (snd (OsPath.splitext (OsPath.basename (String c r)))).
split; [now rewrite Hsum|]. split; [reflexivity | exact Hext].
Qed.

Lemma default_name_replaces_extension_witness :
  exists root ext,
    OsPath.basename "/data/water.v2.xyz" = root +:+ ext
    /\ default_name Sample2.suffixed Sample2.window_with_file
       = root +:+ Py.strip (le_suffix Sample2.suffixed) +:+ ".inp"
    /\ (ext = EmptyString
        \/ exists e, ext = String "."%char e /\ str_contains "." e = false).
Proof.
apply (default_name_replaces_extension Sample2.suffixed Sample2.window_with_file
         "/data/water.v2.xyz"); [reflexivity | discriminate].
Defined.

(** ** The dialog session *)

Section SessionFacts.

Variable mw : MainWindow.

Lemma step_closed (s : Session) (ev : Event) : closed s = true -> step mw s ev = s.
Proof. intros H. unfold step. now rewrite H. Qed.

Lemma fold_closed (events : list Event) (s : Session) :
  closed s = true -> fold_left (step mw) events s = s.
Proof.
induction events as [|ev events IH]; intros H; simpl; [reflexivity|].
rewrite (step_closed s ev H). now apply IH.
Qed.

Lemma generate_file_finds_molecule (self : OrcaInputDialog) (mol : Chem.Mol)
    (save_as : string) (fs : gmap string Node) :
  current_mol mw = Some mol ->
  fst (generate_file self mw save_as fs) <> no_molecule.
Proof.
intros Hmol. unfold generate_file. rewrite Hmol.
destruct (String.eqb (le_template self) EmptyString
          || negb (Os.path_exists fs (le_template self))); [discriminate|].
destruct (String.eqb save_as EmptyString); [discriminate|].
destruct (try_generate self mol (le_template self) save_as fs); discriminate.
Qed.

Lemma step_ranges (s : Session) (ev : Event) :
  within_declared_ranges (form s) -> within_declared_ranges (form (step mw s ev)).
Proof.
intros H. unfold step. destruct (closed s); [exact H|].
destruct ev as [e|picked|save_as|]; cbn [form]; try exact H.
- now apply apply_edit_ranges.
- unfold browse_template. destruct (String.eqb picked EmptyString); exact H.
- destruct (generate_file (form s) mw save_as (files s)). exact H.
Qed.

Lemma step_finds_molecule (mol : Chem.Mol) (s : Session) (ev : Event) :
  current_mol mw = Some mol ->
  Forall (fun o => o <> no_molecule) (shown s) ->
  Forall (fun o => o <> no_molecule) (shown (step mw s ev)).
Proof.
intros Hmol H. unfold step. destruct (closed s); [exact H|].
destruct ev as [e|picked|save_as|]; cbn [shown]; try exact H.
pose proof (generate_file_finds_molecule (form s) mol save_as (files s) Hmol) as Hne.
destruct (generate_file (form s) mw save_as (files s)) as [o fs']. cbn [shown].
apply Forall_app. split; [exact H | repeat constructor; exact Hne].
Qed.

Lemma empty_template_field_warns (self : OrcaInputDialog) (save_as : string)
    (fs : gmap string Node) :
  le_template self = EmptyString ->
  generate_file self mw save_as fs = (template_not_found, fs).
Proof. intros H. unfold generate_file. now rewrite H. Qed.

Lemma step_without_template (s : Session) (ev : Event) :
  picks_template ev = false ->
  le_template (form s) = EmptyString ->
  Forall (fun o => o = template_not_found) (shown s) ->
  le_template (form (step mw s ev)) = EmptyString
  /\ Forall (fun o => o = template_not_found) (shown (step mw s ev))
  /\ files (step mw s ev) = files s.
Proof.
intros Hev Hempty Hshown. unfold step. destruct (closed s); [auto|].
destruct ev as [e|picked|save_as|]; cbn [form shown files]; auto.
- destruct e; cbn in *; auto.
  apply negb_false_iff, String.eqb_eq in Hev. now subst.
- cbn in Hev. unfold browse_template. now rewrite (proj1 (negb_false_iff _) Hev).
- rewrite (empty_template_field_warns (form s) save_as (files s) Hempty).
  cbn [form shown files]. repeat split; auto.
  apply Forall_app. split; [exact Hshown | repeat constructor].
Qed.

End SessionFacts.

(** X12. [run] shows "No molecule loaded." and builds no dialog exactly when
    the main window holds no molecule. With a molecule the dialog is built
    unless an override parses to an integer beyond the C [int] range; in
    the session of a dialog that was built, the "No molecule loaded."
    warning of [generate_file] never appears while the main window stays as
    it was, and the four parameters stay inside their declared ranges. *)
Theorem run_session_has_molecule (environ : gmap string string) (mw : MainWindow)
    (fs : gmap string Node) (events : list Event) :
  match run environ mw with
  | inl o => o = no_molecule /\ current_mol mw = None
  | inr None =>
      current_mol mw <> None
      /\ (overflowing environ NPROCS_VAR \/ overflowing environ MAXCORE_VAR)
  | inr (Some dialog) =>
      current_mol mw <> None
      /\ Forall (fun o => o <> no_molecule) (shown (session mw dialog fs events))
      /\ within_declared_ranges (form (session mw dialog fs events))
  end.
Proof.
unfold run. destruct (current_mol mw) as [mol|] eqn:Hmol; [|now split].
pose proof (init_py_built environ mw) as Hbuilt.
destruct (init_py environ mw) as [dialog|]; [|split; [discriminate | exact Hbuilt]].
split; [discriminate|]. unfold session.
assert (Hinv : forall s0,
           Forall (fun o => o <> no_molecule) (shown s0) ->
           within_declared_ranges (form s0) ->
           Forall (fun o => o <> no_molecule) (shown (fold_left (step mw) events s0))
           /\ within_declared_ranges (form (fold_left (step mw) events s0))).
{ induction events as [|ev events IH]; intros s0 Hs Hr; [now split|].
  cbn [fold_left]. apply IH.
  - now apply (step_finds_molecule mw mol).
  - now apply step_ranges. }
apply Hinv; [constructor | apply Hbuilt].
Qed.

(** X13. The template field starts empty and no default fills it: as long
    as the user neither browses to a template nor types a path, every press
    of Generate answers "Template file not found." and the file system
    stays untouched. *)
Theorem session_without_template (environ : gmap string string) (mw : MainWindow)
    (fs : gmap string Node) (events : list Event) :
  forallb (fun ev => negb (picks_template ev)) events = true ->
  let s := fold_left (step mw) events (mkSession (init environ mw) fs false []) in
  Forall (fun o => o = template_not_found) (shown s) /\ files s = fs.
Proof.
intros Hev.
assert (Hinv : forall s0,
           le_template (form s0) = EmptyString ->
           Forall (fun o => o = template_not_found) (shown s0) ->
           Forall (fun o => o = template_not_found) (shown (fold_left (step mw) events s0))
           /\ files (fold_left (step mw) events s0) = files s0).
{ induction events as [|ev events IH]; intros s0 Ht Hs; [now split|].
  cbn [forallb] in Hev. apply andb_true_iff in Hev as [H1 H2].
  apply negb_true_iff in H1.
  destruct (step_without_template mw s0 ev H1 Ht Hs) as (Ht' & Hs' & Hf').
  cbn [fold_left]. destruct (IH H2 _ Ht' Hs') as [Hshown Hfiles].
  split; [exact Hshown | now rewrite Hfiles]. }
apply Hinv; [|constructor].
unfold init, load_defaults. now destruct (current_mol mw).
Qed.

Lemma session_without_template_witness :
  Forall (fun o => o = template_not_found)
    (shown (fold_left (step Sample.window)
              [Edit (EditNProcs 8); Browse EmptyString; Generate "water.inp"%string]
              (mkSession (init ∅ Sample.window) Sample.fs false [])))
  /\ files (fold_left (step Sample.window)
              [Edit (EditNProcs 8); Browse EmptyString; Generate "water.inp"%string]
              (mkSession (init ∅ Sample.window) Sample.fs false []))
     = Sample.fs.
Proof.
apply (session_without_template ∅ Sample.window Sample.fs
         [Edit (EditNProcs 8); Browse EmptyString; Generate "water.inp"%string]).
reflexivity.
Defined.

(** X14. For a current file whose name starts with its only dot (a hidden
    file such as [dir/.structure]) nothing counts as extension: the whole
    name is kept in front of the suffix and [.inp]. *)
Theorem default_name_of_dot_file (self : OrcaInputDialog) (mol : option Chem.Mol)
    (dir rest : string) :
  str_contains "/" rest = false ->
  str_contains "." rest = false ->
  default_name self (mkMainWindow mol (Some (dir +:+ "/." +:+ rest)))
  = "." +:+ rest +:+ Py.strip (le_suffix self) +:+ ".inp".
Proof.
intros Hs Hd. unfold default_name. cbn [current_file_path].
change (dir +:+ "/." +:+ rest) with (dir +:+ String "/" (String "." rest)).
assert (Hname : str_contains "/" (String "." rest) = false) by (cbn; exact Hs).
pose proof (basename_join dir _ Hname) as Hbase.
destruct (dir +:+ String "/" (String "." rest)) as [|c r] eqn:Hpath.
- destruct dir; discriminate.
- rewrite Hbase. unfold OsPath.splitext.
  rewrite (rfind_absent "/" _ Hname).
  change (String "." rest) with (EmptyString +:+ String "." rest).
  rewrite (rfind_last "." EmptyString rest Hd). reflexivity.
Qed.

Lemma default_name_of_dot_file_witness :
  default_name Sample2.suffixed (mkMainWindow None (Some "/home/user/.structure"%string))
  = ".structure_opt.inp"%string.
Proof.
apply (default_name_of_dot_file Sample2.suffixed None "/home/user" "structure");
  reflexivity.
Defined.

Lemma template_directory_fails_witness :
  generate_file Sample.dialog Sample.window "water.inp" Sample2.fs_template_dir
  = (Critical (IsADirectoryError Sample.template_path), Sample2.fs_template_dir).
Proof.
apply (template_directory_fails Sample.dialog Sample.window Sample.mol "water.inp"
         Sample2.fs_template_dir);
  solve [reflexivity | discriminate].
Defined.
